(** * onlinecourse: a shallow embedding of the Django application

    The persistent store is a record of tables, one finite map per model,
    keyed by primary key.  Query sets are finite maps obtained by filtering
    a table; Python sets of model instances compare by primary key, so they
    are the domains of such maps.  Views run in a state-and-exception monad
    over the store and the session. *)

From Stdlib Require Import ZArith Ascii DecimalString DecimalPos DecimalN.
From stdpp Require Import gmap strings list fin_maps sorting.

Open Scope Z_scope.

(** ** models.py: the schema *)

Record User := mkUser {
  username : string;
  first_name : string;
  last_name : string;
  password : string;
}.

Record Course := mkCourse {
  name : string;
  image : string;
  description : string;
  pub_date : option Z;
  total_enrollment : Z;
}.

(** Enrollment.COURSE_MODES *)
Definition AUDIT : string := "audit".
Definition HONOR : string := "honor".
Definition BETA : string := "BETA".

(** The [rating] column keeps its default in every row the application
    writes and is read nowhere; it is left out. *)
Record Enrollment := mkEnrollment {
  enrollment_user : Z;
  enrollment_course : Z;
  date_enrolled : Z;
  mode : string;
}.

Record Question := mkQuestion {
  question_course : Z;
  question_text : string;
  grade : Z;
}.

Record Choice := mkChoice {
  choice_question : Z;
  choice_text : string;
  is_correct : bool;
}.

Record Submission := mkSubmission {
  submission_enrollment : Z;
}.

#[global] Instance User_eq_dec : EqDecision User.
Proof. solve_decision. Defined.
#[global] Instance Course_eq_dec : EqDecision Course.
Proof. solve_decision. Defined.
#[global] Instance Enrollment_eq_dec : EqDecision Enrollment.
Proof. solve_decision. Defined.
#[global] Instance Question_eq_dec : EqDecision Question.
Proof. solve_decision. Defined.
#[global] Instance Choice_eq_dec : EqDecision Choice.
Proof. solve_decision. Defined.
#[global] Instance Submission_eq_dec : EqDecision Submission.
Proof. solve_decision. Defined.

(** The database.  [submission_choices] is the join table of the
    many-to-many field [Submission.choices]: pairs (submission id, choice id). *)
Record DB := mkDB {
  users : gmap Z User;
  courses : gmap Z Course;
  enrollments : gmap Z Enrollment;
  questions : gmap Z Question;
  choices : gmap Z Choice;
  submissions : gmap Z Submission;
  submission_choices : gset (Z * Z);
}.

(** ** The object-relational mapper *)

Inductive exn :=
  | Http404
  | DoesNotExist (model : string)
  | MultipleObjectsReturned (model : string)
  | MultiValueDictKeyError (key : string)
  | IntegrityError
  | TypeError
  | ValueError.

Inductive result (A : Type) :=
  | Ok (a : A)
  | Raise (e : exn).
Arguments Ok {A} a.
Arguments Raise {A} e.

Section Manager.
Context {A : Type}.

(** [qs.count()] *)
Definition count (qs : gmap Z A) : Z := Z.of_nat (size qs).

(** [Model.objects.get(...)] on an already filtered query set. *)
Definition get (model : string) (qs : gmap Z A) : result (Z * A) :=
  match map_to_list qs with
  | [] => Raise (DoesNotExist model)
  | [row] => Ok row
  | _ => Raise (MultipleObjectsReturned model)
  end.

(** [get_object_or_404(Model, pk=pk)] *)
Definition get_object_or_404 (table : gmap Z A) (pk : Z) : result A :=
  match table !! pk with
  | Some row => Ok row
  | None => Raise Http404
  end.

(** The key the database assigns to a new row: one more than the largest
    key in use, 1 in an empty table. *)
Definition next_pk (table : gmap Z A) : Z :=
  1 + foldr Z.max 0 (elements (dom table)).

(** [Model.objects.create(...)] *)
Definition create (row : A) (table : gmap Z A) : Z * gmap Z A :=
  let pk := next_pk table in (pk, <[pk := row]> table).
End Manager.

(** ** Question.is_get_score *)

(** [question.choice_set.filter(is_correct=True)] *)
Definition correct_choices (db : DB) (question : Z) : gmap Z Choice :=
  filter (λ kc : Z * Choice,
            choice_question kc.2 = question ∧ is_correct kc.2 = true)
         (choices db).

(** [question.choice_set.filter(is_correct=True, id__in=selected_ids)] *)
Definition selected_correct_choices (db : DB) (question : Z)
    (selected_ids : list Z) : gmap Z Choice :=
  filter (λ kc : Z * Choice,
            choice_question kc.2 = question ∧ is_correct kc.2 = true
            ∧ kc.1 ∈ selected_ids)
         (choices db).

Definition is_get_score (db : DB) (question : Z) (selected_ids : list Z) : bool :=
  let all_answers := count (correct_choices db question) in
  let selected_correct := count (selected_correct_choices db question selected_ids) in
  if decide (all_answers = selected_correct) then true else false.

(** ** views.py: requests, responses and the view monad *)

(** [request.user] is [Some pk] for an authenticated account and [None] for
    the anonymous user; [request.POST] maps a form field to its value;
    [now] is the date the request is served. *)
Record HttpRequest := mkRequest {
  method : string;
  POST : gmap string string;
  user : option Z;
  now : Z;
}.

(** Values a view stores in a template context. *)
Inductive value :=
  | VStr (s : string)
  | VInt (n : Z)
  | VCourse (pk : Z) (course : Course)
  | VChoices (qs : gmap Z Choice).

Inductive HttpResponse :=
  | render (template_name : string) (context : gmap string value)
  | redirect (viewname : string) (args : list Z).

(** What a request can change: the database and the account the session is
    logged in as. *)
Record World := mkWorld {
  db : DB;
  session : option Z;
}.

Definition View (A : Type) : Type := World → World * result A.

#[global] Instance View_ret : MRet View := λ A a w, (w, Ok a).
#[global] Instance View_bind : MBind View := λ A B f m w,
  match m w with
  | (w', Ok a) => f a w'
  | (w', Raise e) => (w', Raise e)
  end.

Definition raise {A} (e : exn) : View A := λ w, (w, Raise e).
Definition lift {A} (r : result A) : View A := λ w, (w, r).
Definition query : View DB := λ w, (w, Ok (db w)).
Definition write (d : DB) : View unit := λ w, (mkWorld d (session w), Ok ()).
(** [login(request, user)] *)
Definition login (pk : Z) : View unit := λ w, (mkWorld (db w) (Some pk), Ok ()).

(** [request.POST[key]] *)
Definition getitem (post : gmap string string) (key : string) : result string :=
  match post !! key with
  | Some v => Ok v
  | None => Raise (MultiValueDictKeyError key)
  end.

(** Python's [int(s)] on decimal literals with an optional sign; any other
    string is a [ValueError]. *)
Definition int (s : string) : result Z :=
  let digits (t : string) (sign : Z) : result Z :=
    match NilZero.uint_of_string t with
    | Some u => Ok (sign * Z.of_uint u)
    | None => Raise ValueError
    end in
  match s with
  | String "+"%char t => digits t 1
  | String "-"%char t => digits t (-1)
  | _ => digits s 1
  end.

(** *** registration_request *)

(** The rows [User.objects.get(username=name)] selects from. *)
Definition users_named (d : DB) (name : string) : gmap Z User :=
  filter (λ ku : Z * User, username ku.2 = name) (users d).

Section Registration.
(** The password hasher behind [create_user]. *)
Variable make_password : string → string.

(** [User.objects.create_user(...)] *)
Definition create_user (username first_name last_name password : string)
    : View Z :=
  if decide (username = "") then raise ValueError
  else
    d ← query;
    let '(pk, users') :=
      create (mkUser username first_name last_name (make_password password))
             (users d) in
    write (mkDB users' (courses d) (enrollments d) (questions d) (choices d)
                (submissions d) (submission_choices d));;
    mret pk.

Definition registration_request (request : HttpRequest) : View HttpResponse :=
  let context : gmap string value := ∅ in
  if decide (method request = "GET") then
    mret (render "onlinecourse/user_registration_bootstrap.html" context)
  else if decide (method request = "POST") then
    username ← lift (getitem (POST request) "username");
    d ← query;
    user_exist ←
      match get "User" (users_named d username) with
      | Ok _ => mret true
      | Raise (DoesNotExist _) => mret false
      | Raise e => raise e
      end;
    if negb user_exist then
      firstname ← lift (getitem (POST request) "firstname");
      lastname ← lift (getitem (POST request) "lastname");
      psw ← lift (getitem (POST request) "psw");
      user ← create_user username firstname lastname psw;
      login user;;
      mret (redirect "onlinecourse:index" [])
    else
      let context := <["message" := VStr "El nombre de usuario ya existe."]> context in
      mret (render "onlinecourse/user_registration_bootstrap.html" context)
  else
    (* the view returns None, which the framework refuses *)
    raise ValueError.
End Registration.

(** *** CourseListView and enroll *)

(** A [Course] instance in memory: the row, its key, and the Python
    attribute [is_enrolled], whose class default is [False]. *)
Record CourseInstance := mkCourseInstance {
  pk : Z;
  fields : Course;
  is_enrolled : bool;
}.

(** The order of [order_by('-total_enrollment')]. *)
Definition by_total_enrollment_desc (a b : Z * Course) : Prop :=
  total_enrollment b.2 ≤ total_enrollment a.2.

#[global] Instance by_total_enrollment_desc_dec a b :
  Decision (by_total_enrollment_desc a b).
Proof. unfold by_total_enrollment_desc. apply _. Defined.

(** [Course.objects.order_by('-total_enrollment')] *)
Definition order_by_total_enrollment_desc (table : gmap Z Course)
    : list (Z * Course) :=
  merge_sort by_total_enrollment_desc (map_to_list table).

(** [Enrollment.objects.filter(user=user, course=course)] *)
Definition enrollments_of (d : DB) (user course : Z) : gmap Z Enrollment :=
  filter (λ ke : Z * Enrollment,
            enrollment_user ke.2 = user ∧ enrollment_course ke.2 = course)
         (enrollments d).

Definition check_if_enrolled (d : DB) (user course : Z) : bool :=
  bool_decide (0 < count (enrollments_of d user course)).

Definition get_queryset (request : HttpRequest) : View (list CourseInstance) :=
  d ← query;
  let courses :=
    (λ kc : Z * Course, mkCourseInstance kc.1 kc.2 false)
      <$> take 10 (order_by_total_enrollment_desc (courses d)) in
  match user request with
  | Some uid =>
      mret ((λ course,
               mkCourseInstance (pk course) (fields course)
                 (check_if_enrolled d uid (pk course))) <$> courses)
  | None => mret courses
  end.

(** [course.total_enrollment += 1] *)
Definition incr_total_enrollment (course : Course) : Course :=
  mkCourse (name course) (image course) (description course) (pub_date course)
           (total_enrollment course + 1).

(** [Enrollment.objects.create(user=user, course=course, mode='honor')] *)
Definition create_enrollment (uid course_id today : Z) : View Z :=
  d ← query;
  let '(eid, enrollments') :=
    create (mkEnrollment uid course_id today "honor") (enrollments d) in
  write (mkDB (users d) (courses d) enrollments' (questions d) (choices d)
              (submissions d) (submission_choices d));;
  mret eid.

(** [course.save()] *)
Definition save_course (course_id : Z) (course : Course) : View unit :=
  d ← query;
  write (mkDB (users d) (<[course_id := course]> (courses d)) (enrollments d)
              (questions d) (choices d) (submissions d) (submission_choices d)).

Definition enroll (request : HttpRequest) (course_id : Z) : View HttpResponse :=
  d ← query;
  course ← lift (get_object_or_404 (courses d) course_id);
  match user request with
  | Some uid =>
      if negb (check_if_enrolled d uid course_id) then
        create_enrollment uid course_id (now request);;
        save_course course_id (incr_total_enrollment course)
      else mret ()
  | None => mret ()
  end;;
  mret (redirect "onlinecourse:course_details" [course_id]).

(** *** submit *)

(** The loop of [extract_answers] over the remaining form fields. *)
Fixpoint extract_answers_from (items : list (string * string))
    (submitted_answers : list Z) : result (list Z) :=
  match items with
  | [] => Ok submitted_answers
  | (key, v) :: items =>
      if String.prefix "choice" key then
        match int v with
        | Ok choice_id => extract_answers_from items (submitted_answers ++ [choice_id])
        | Raise e => Raise e
        end
      else extract_answers_from items submitted_answers
  end.

Definition extract_answers (request : HttpRequest) : result (list Z) :=
  extract_answers_from (map_to_list (POST request)) [].

(** [Submission.objects.create(enrollment=enrollment)] *)
Definition create_submission (enrollment_id : Z) : View Z :=
  d ← query;
  let '(sid, submissions') :=
    create (mkSubmission enrollment_id) (submissions d) in
  write (mkDB (users d) (courses d) (enrollments d) (questions d) (choices d)
              submissions' (submission_choices d));;
  mret sid.

(** [submission.choices.set(ids)]: the rows of the join table for this
    submission become exactly the given ids; an id that is no choice breaks
    the foreign key and the statement is rolled back. *)
Definition set_choices (submission_id : Z) (ids : list Z) : View unit :=
  d ← query;
  if decide (Forall (λ i, i ∈ dom (choices d)) ids) then
    write (mkDB (users d) (courses d) (enrollments d) (questions d) (choices d)
                (submissions d)
                (filter (λ p : Z * Z, p.1 ≠ submission_id) (submission_choices d)
                 ∪ list_to_set ((λ i, (submission_id, i)) <$> ids)))
  else raise IntegrityError.

Definition submit (request : HttpRequest) (course_id : Z) : View HttpResponse :=
  d ← query;
  course ← lift (get_object_or_404 (courses d) course_id);
  enrollment ←
    match user request with
    | Some uid => lift (get "Enrollment" (enrollments_of d uid course_id))
    | None => raise TypeError
    end;
  submission_id ← create_submission enrollment.1;
  choices ← lift (extract_answers request);
  set_choices submission_id choices;;
  mret (redirect "onlinecourse:exam_result" [course_id; submission_id]).

(** *** show_exam_result *)

(** [submission.choices.all()] *)
Definition selected_choices (d : DB) (submission_id : Z) : gmap Z Choice :=
  filter (λ kc : Z * Choice, (submission_id, kc.1) ∈ submission_choices d)
         (choices d).

(** [selected_choices.filter(question=question)] *)
Definition user_choices_for_question (selected : gmap Z Choice) (question : Z)
    : gmap Z Choice :=
  filter (λ kc : Z * Choice, choice_question kc.2 = question) selected.

(** [course.question_set.all()] *)
Definition question_set (d : DB) (course_id : Z) : gmap Z Question :=
  filter (λ kq : Z * Question, question_course kq.2 = course_id) (questions d).

(** The test of the grading loop: [set(correct_choices) ==
    set(user_choices_for_question)]; model instances hash and compare by key. *)
Definition sets_equal (d : DB) (selected : gmap Z Choice) (question : Z) : Prop :=
  dom (correct_choices d question) = dom (user_choices_for_question selected question).

#[global] Instance sets_equal_dec d selected question :
  Decision (sets_equal d selected question).
Proof. unfold sets_equal. apply _. Defined.

(** One turn of the grading loop. *)
Definition grade_question (d : DB) (selected : gmap Z Choice)
    (total_score : Z) (q : Z * Question) : Z :=
  if decide (sets_equal d selected q.1) then total_score + grade q.2
  else total_score.

Definition show_exam_result (request : HttpRequest) (course_id submission_id : Z)
    : View HttpResponse :=
  let context : gmap string value := ∅ in
  d ← query;
  course ← lift (get_object_or_404 (courses d) course_id);
  submission ←
    match submissions d !! submission_id with
    | Some s => mret s
    | None => raise (DoesNotExist "Submission")
    end;
  let selected := selected_choices d submission_id in
  let total_score :=
    foldl (grade_question d selected) 0 (map_to_list (question_set d course_id)) in
  let context := <["course" := VCourse course_id course]> context in
  let context := <["grade" := VInt total_score]> context in
  let context := <["choices" := VChoices selected]> context in
  mret (render "onlinecourse/exam_result_bootstrap.html" context).

(** ** The scenario of the specification: a course with two questions *)

Definition demo_db : DB :=
  mkDB {[ 1 := mkUser "ana" "Ana" "Diaz" "x" ]}
       {[ 1 := mkCourse "C" "c.png" "a course" None 0 ]}
       ∅
       {[ 1 := mkQuestion 1 "Q1" 50; 2 := mkQuestion 1 "Q2" 50 ]}
       {[ 1 := mkChoice 1 "A" true; 2 := mkChoice 1 "B" true;
          3 := mkChoice 2 "C" true; 4 := mkChoice 1 "D" false ]}
       ∅ ∅.

Definition demo_request (fields : list (string * string)) : HttpRequest :=
  mkRequest "POST" (list_to_map fields) (Some 1) 20000.

Definition run {A} (v : View A) (w : World) : World := (v w).1.

Definition demo_exam (fields : list (string * string)) : World * result HttpResponse :=
  let w1 := run (enroll (demo_request []) 1) (mkWorld demo_db None) in
  let w2 := run (submit (demo_request fields) 1) w1 in
  show_exam_result (demo_request []) 1 1 w2.

Definition response_grade (r : World * result HttpResponse) : option value :=
  match r.2 with
  | Ok (render _ context) => context !! "grade"
  | _ => None
  end.

(** ** The wording of the specification for [is_get_score] *)

(** "is a correct choice of that question", for an identifier. *)
Definition is_correct_choice_of (d : DB) (question : Z) (i : Z) : Prop :=
  ∃ c, choices d !! i = Some c ∧ choice_question c = question ∧ is_correct c = true.

#[global] Instance is_correct_choice_of_dec d question i :
  Decision (is_correct_choice_of d question i).
Proof.
  unfold is_correct_choice_of.
  destruct (choices d !! i) as [c|] eqn:E.
  - destruct (decide (choice_question c = question ∧ is_correct c = true)) as [H|H].
    + left. exists c. tauto.
    + right. intros (c' & Hc & H1 & H2). apply H. by simplify_eq.
  - right. by intros (c' & Hc & _).
Defined.

(** "the question's total correct choices": the rows of the choice table
    that are correct choices of the question, counted. *)
Definition spec_total_correct (d : DB) (question : Z) : nat :=
  length (filter (λ kc : Z * Choice, is_correct_choice_of d question kc.1)
                 (map_to_list (choices d))).

(** "how many of the selected identifiers are correct choices for that
    question": the selection is a set, an identifier sent twice counts once. *)
Definition spec_selected_correct (d : DB) (question : Z) (selected_ids : list Z) : nat :=
  length (filter (is_correct_choice_of d question) (remove_dups selected_ids)).

(** ** Points per question *)

(** Python's [sum]. *)
Definition sum (l : list Z) : Z := foldr Z.add 0 l.

(** The points the grading loop adds to the score for one question. *)
Definition awarded_points (d : DB) (selected : gmap Z Choice) (q : Z * Question) : Z :=
  grade_question d selected 0 q.

(** *** login_request and logout_request *)

Section Login.
(** [django.contrib.auth.authenticate]: the account the credentials belong
    to, if they are valid. *)
Variable authenticate : DB → string → string → option Z.

Definition login_request (request : HttpRequest) : View HttpResponse :=
  let context : gmap string value := ∅ in
  if decide (method request = "POST") then
    username ← lift (getitem (POST request) "username");
    password ← lift (getitem (POST request) "psw");
    d ← query;
    match authenticate d username password with
    | Some user =>
        login user;;
        mret (redirect "onlinecourse:index" [])
    | None =>
        let context := <["message" := VStr "Usuario o contraseña no válidos."]> context in
        mret (render "onlinecourse/user_login_bootstrap.html" context)
    end
  else
    mret (render "onlinecourse/user_login_bootstrap.html" context).
End Login.



(** ** urls.py: the routing table *)

(** A route is a sequence of pieces, each closed by a slash in the URL: a
    literal text or an [<int:name>] converter.  A request path is the
    sequence of its slash-terminated pieces, none for the empty path. *)
Inductive piece :=
  | Lit (text : string)
  | IntConverter (name : string).

(** The [int] converter: the pattern [[0-9]+], [to_python] and [to_url]. *)
Definition to_python (s : string) : option Z :=
  Z.of_uint <$> NilZero.uint_of_string s.

Definition to_url (n : Z) : string :=
  NilZero.string_of_uint (N.to_uint (Z.to_N n)).

Definition app_name : string := "onlinecourse".

(** The entries of [urlpatterns] written in urls.py: route and name.  The
    media routes that [static(...)] appends come after them. *)
Definition urlpatterns : list (list piece * string) :=
  [ ([], "index");
    ([Lit "registration"], "registration");
    ([Lit "login"], "login");
    ([Lit "logout"], "logout");
    ([IntConverter "pk"], "course_details");
    ([IntConverter "course_id"; Lit "enroll"], "enroll");
    ([IntConverter "course_id"; Lit "submit"], "submit");
    ([Lit "course"; IntConverter "course_id"; Lit "submission";
      IntConverter "submission_id"; Lit "result"], "exam_result") ].

(** Matching a path against one route: the captured keyword arguments. *)
Fixpoint match_route (route : list piece) (path : list string)
    : option (list (string * Z)) :=
  match route, path with
  | [], [] => Some []
  | Lit text :: route, p :: path =>
      if decide (text = p) then match_route route path else None
  | IntConverter name :: route, p :: path =>
      match to_python p with
      | Some n => (λ kwargs, (name, n) :: kwargs) <$> match_route route path
      | None => None
      end
  | _, _ => None
  end.

(** [resolve]: the first pattern that matches, with its arguments. *)
Fixpoint resolve (patterns : list (list piece * string)) (path : list string)
    : option (string * list (string * Z)) :=
  match patterns with
  | [] => None
  | (route, name) :: patterns =>
      match match_route route path with
      | Some kwargs => Some (name, kwargs)
      | None => resolve patterns path
      end
  end.

(** Filling a route with positional arguments; an argument the converter
    pattern would not match (a negative number) fits no route. *)
Fixpoint fill_route (route : list piece) (args : list Z) : option (list string) :=
  match route, args with
  | [], [] => Some []
  | Lit text :: route, _ => (λ path, text :: path) <$> fill_route route args
  | IntConverter _ :: route, n :: args =>
      if decide (0 ≤ n) then (λ path, to_url n :: path) <$> fill_route route args
      else None
  | _, _ => None
  end.

(** [reverse(viewname, args=args)] for a name in the application's
    namespace; [None] stands for [NoReverseMatch]. *)
Fixpoint reverse_in (patterns : list (list piece * string)) (viewname : string)
    (args : list Z) : option (list string) :=
  match patterns with
  | [] => None
  | (route, name) :: patterns =>
      if decide (viewname = app_name +:+ ":" +:+ name) then
        match fill_route route args with
        | Some path => Some path
        | None => reverse_in patterns viewname args
        end
      else reverse_in patterns viewname args
  end.

Definition reverse (viewname : string) (args : list Z) : option (list string) :=
  reverse_in urlpatterns viewname args.

(** Where a response sends the browser. *)
Definition location (response : HttpResponse) : option (list string) :=
  match response with
  | redirect viewname args => reverse viewname args
  | render _ _ => None
  end.

(** Whether two routes can match one and the same path: piece by piece,
    equal literals, or a literal that the [int] converter accepts. *)
Fixpoint overlap (route1 route2 : list piece) : bool :=
  match route1, route2 with
  | [], [] => true
  | Lit a :: route1, Lit b :: route2 => bool_decide (a = b) && overlap route1 route2
  | Lit a :: route1, IntConverter _ :: route2
  | IntConverter _ :: route1, Lit a :: route2 =>
      bool_decide (is_Some (to_python a)) && overlap route1 route2
  | IntConverter _ :: route1, IntConverter _ :: route2 => overlap route1 route2
  | _, _ => false
  end.

(** ** Reading the store *)

(** The stored [total_enrollment] of a course. *)
Definition stored_total_enrollment (d : DB) (course_id : Z) : option Z :=
  total_enrollment <$> courses d !! course_id.

(** "One conceptual enrollment per (account, course) pair": what sequential
    use of [enroll] maintains, though no constraint of the schema says it. *)
Definition enrollment_unique (d : DB) : Prop :=
  ∀ uid course_id, count (enrollments_of d uid course_id) ≤ 1.

(** The schema constraint [unique=True] on [User.username]. *)
Definition username_unique (d : DB) : Prop :=
  ∀ i j ui uj, users d !! i = Some ui → users d !! j = Some uj →
               username ui = username uj → i = j.

(** The store after a first enrollment. *)
Definition enrolled_db (d : DB) (uid course_id today : Z) (course : Course) : DB :=
  mkDB (users d)
       (<[course_id := incr_total_enrollment course]> (courses d))
       (<[next_pk (enrollments d) := mkEnrollment uid course_id today "honor"]>
          (enrollments d))
       (questions d) (choices d) (submissions d) (submission_choices d).

(** [Enrollment.objects.filter(course=course)]: the rows the counter
    [total_enrollment] of a course stands for. *)
Definition enrollments_in (d : DB) (course_id : Z) : gmap Z Enrollment :=
  filter (λ ke : Z * Enrollment, enrollment_course ke.2 = course_id)
         (enrollments d).

(** The denormalized counter of every course agrees with the enrollment
    table. *)
Definition counter_consistent (d : DB) : Prop :=
  ∀ course_id course, courses d !! course_id = Some course →
                      total_enrollment course = count (enrollments_in d course_id).

(** The store with another submission table and join table. *)
Definition with_submissions (d : DB) (submissions' : gmap Z Submission)
    (join : gset (Z * Z)) : DB :=
  mkDB (users d) (courses d) (enrollments d) (questions d) (choices d)
       submissions' join.

(** The join table after [submission.choices.set(ids)]. *)
Definition join_after_set (d : DB) (submission_id : Z) (ids : list Z) : gset (Z * Z) :=
  filter (λ p : Z * Z, p.1 ≠ submission_id) (submission_choices d)
  ∪ list_to_set ((λ i, (submission_id, i)) <$> ids).

(** The store after [create_user] wrote the account [u]. *)
Definition registered_db (d : DB) (u : User) : DB :=
  mkDB (<[next_pk (users d) := u]> (users d)) (courses d) (enrollments d)
       (questions d) (choices d) (submissions d) (submission_choices d).


(** ** Sample stores *)

(** The demo course after one enrollment and one submission that selects
    A and B (both correct choices of Q1) and D (an incorrect choice of Q1). *)
Definition extra_choice_db : DB :=
  mkDB (users demo_db) (courses demo_db)
       {[ 1 := mkEnrollment 1 1 20000 "honor" ]}
       (questions demo_db) (choices demo_db)
       {[ 1 := mkSubmission 1 ]}
       {[ (1, 1); (1, 2); (1, 4) ]}.

(** A question whose two choices are both incorrect. *)
Definition no_correct_db : DB :=
  mkDB ∅ {[ 1 := mkCourse "C" "c.png" "a course" None 0 ]} ∅
       {[ 1 := mkQuestion 1 "Q" 50 ]}
       {[ 1 := mkChoice 1 "A" false; 2 := mkChoice 1 "B" false ]}
       ∅ ∅.

(** A question worth no points, answered with its one correct choice. *)
Definition zero_grade_db : DB :=
  mkDB {[ 1 := mkUser "ana" "Ana" "Diaz" "x" ]}
       {[ 1 := mkCourse "C" "c.png" "a course" None 1 ]}
       {[ 1 := mkEnrollment 1 1 20000 "honor" ]}
       {[ 1 := mkQuestion 1 "Q" 0 ]}
       {[ 1 := mkChoice 1 "A" true; 2 := mkChoice 1 "B" false ]}
       {[ 1 := mkSubmission 1 ]}
       {[ (1, 1) ]}.

(** The demo course after one enrollment and a submission that selects
    exactly the correct choices A, B (of Q1) and C (of Q2). *)
Definition full_marks_db : DB :=
  mkDB (users demo_db) (courses demo_db)
       {[ 1 := mkEnrollment 1 1 20000 "honor" ]}
       (questions demo_db) (choices demo_db)
       {[ 1 := mkSubmission 1 ]}
       {[ (1, 1); (1, 2); (1, 3) ]}.

(** Two courses.  Q2 of course 1 has no correct choice and Q3 belongs to
    course 2; submission 1 selects nothing and submission 2 selects the
    choice of Q3. *)
Definition blank_db : DB :=
  mkDB (users demo_db)
       {[ 1 := mkCourse "C" "c.png" "a course" None 1;
          2 := mkCourse "D" "d.png" "another course" None 0 ]}
       {[ 1 := mkEnrollment 1 1 20000 "honor" ]}
       {[ 1 := mkQuestion 1 "Q1" 50; 2 := mkQuestion 1 "Q2" 30;
          3 := mkQuestion 2 "Q3" 20 ]}
       {[ 1 := mkChoice 1 "A" true; 2 := mkChoice 2 "B" false;
          3 := mkChoice 3 "C" true ]}
       {[ 1 := mkSubmission 1; 2 := mkSubmission 1 ]}
       {[ (2, 3) ]}.

(** The demo course with the enrollment row written twice, as two racing
    [enroll] requests leave it. *)
Definition duplicate_enrollment_db : DB :=
  mkDB (users demo_db) (courses demo_db)
       {[ 1 := mkEnrollment 1 1 20000 "honor"; 2 := mkEnrollment 1 1 20000 "honor" ]}
       (questions demo_db) (choices demo_db) ∅ ∅.

(** * Properties *)

Example enroll_demo :
  enrollments (db (run (enroll (demo_request []) 1) (mkWorld demo_db None)))
  = {[ 1 := mkEnrollment 1 1 20000 "honor" ]}.
Proof. vm_compute. reflexivity. Qed.

Example exam_all_correct :
  response_grade (demo_exam [("choice_1", "1"); ("choice_2", "2"); ("choice_3", "3")])
  = Some (VInt 100).
Proof. vm_compute. reflexivity. Qed.

Example exam_partial :
  response_grade (demo_exam [("choice_1", "1")]) = Some (VInt 0).
Proof. vm_compute. reflexivity. Qed.

(** ** The object-relational mapper *)

Lemma foldr_max_ge (l : list Z) (k : Z) : k ∈ l → k ≤ foldr Z.max 0 l.
Proof.
  induction l as [|x l IH]; intros Hk.
  - by apply elem_of_nil in Hk.
  - apply elem_of_cons in Hk as [->|Hk]; simpl; [lia|].
    specialize (IH Hk). lia.
Qed.

Lemma next_pk_fresh {A} (table : gmap Z A) : table !! next_pk table = None.
Proof.
  destruct (table !! next_pk table) as [x|] eqn:E; [|done].
  assert (next_pk table ∈ elements (dom table)) as Hin.
  { apply elem_of_elements, elem_of_dom. by exists x. }
  apply foldr_max_ge in Hin. unfold next_pk in Hin. lia.
Qed.

Lemma count_nonneg {A} (qs : gmap Z A) : 0 ≤ count qs.
Proof. unfold count. lia. Qed.

Lemma count_pos_iff {A} (qs : gmap Z A) :
  0 < count qs ↔ ∃ k x, qs !! k = Some x.
Proof.
  unfold count. split.
  - intros H. apply map_size_ne_0_lookup. lia.
  - intros (k & x & H). assert (size qs ≠ 0%nat); [|lia].
    apply map_size_ne_0_lookup. eauto.
Qed.

(** ** Question.is_get_score *)

Lemma selected_correct_subseteq d q ids :
  selected_correct_choices d q ids ⊆ correct_choices d q.
Proof.
  apply map_subseteq_spec. intros i c.
  unfold selected_correct_choices, correct_choices.
  rewrite !map_lookup_filter_Some. simpl. tauto.
Qed.

(** The count comparison holds exactly when every correct choice of the
    question is among the selected identifiers. *)
Lemma is_get_score_all_selected d q ids :
  is_get_score d q ids = true ↔
  ∀ i c, correct_choices d q !! i = Some c → i ∈ ids.
Proof.
  unfold is_get_score, count. case_decide as Hc; split; try done.
  - intros _ i c Hi.
    assert (selected_correct_choices d q ids = correct_choices d q) as Heq.
    { apply map_subseteq_size_eq; [apply selected_correct_subseteq | lia]. }
    rewrite <- Heq in Hi. unfold selected_correct_choices in Hi.
    apply map_lookup_filter_Some in Hi. simpl in Hi. tauto.
  - intros Hall. exfalso. apply Hc. f_equal. f_equal.
    apply map_eq. intros i. apply option_eq. intros c.
    unfold selected_correct_choices, correct_choices.
    rewrite !map_lookup_filter_Some. simpl. split; [|tauto].
    intros [Hi [Hq Hok]]. repeat split; try done.
    apply (Hall i c). unfold correct_choices.
    by apply map_lookup_filter_Some.
Qed.

Lemma correct_choice_lookup d q i c :
  correct_choices d q !! i = Some c ↔
  choices d !! i = Some c ∧ choice_question c = q ∧ is_correct c = true.
Proof. unfold correct_choices. by rewrite map_lookup_filter_Some. Qed.

Lemma is_correct_choice_of_lookup d q i :
  is_correct_choice_of d q i ↔ ∃ c, correct_choices d q !! i = Some c.
Proof.
  unfold is_correct_choice_of. split; intros [c Hc]; exists c;
    by apply correct_choice_lookup.
Qed.

(** The first count of the code is the first count of the specification. *)
Lemma count_correct_choices_spec d q :
  count (correct_choices d q) = Z.of_nat (spec_total_correct d q).
Proof.
  unfold count, spec_total_correct. f_equal.
  rewrite <- length_map_to_list. apply Permutation_length.
  apply NoDup_Permutation.
  - apply NoDup_map_to_list.
  - apply NoDup_filter, NoDup_map_to_list.
  - intros [i c]. rewrite list_elem_of_filter, !elem_of_map_to_list.
    rewrite correct_choice_lookup. simpl. split.
    + intros (Hi & Hq & Hc). split; [|done]. by exists c.
    + intros [(c' & Hi' & Hq & Hc) Hi]. by simplify_eq.
Qed.

(** The second count of the code is the second count of the specification. *)
Lemma count_selected_correct_spec d q ids :
  count (selected_correct_choices d q ids)
  = Z.of_nat (spec_selected_correct d q ids).
Proof.
  unfold count, spec_selected_correct. f_equal.
  rewrite <- (size_dom (D:=gset Z)).
  rewrite <- (size_list_to_set (C:=gset Z)).
  2:{ apply NoDup_filter, NoDup_remove_dups. }
  f_equal. apply set_eq. intros i.
  rewrite elem_of_dom, elem_of_list_to_set, list_elem_of_filter,
    elem_of_remove_dups.
  unfold selected_correct_choices, is_correct_choice_of, is_Some.
  split.
  - intros [c Hc]. apply map_lookup_filter_Some in Hc as (Hi & Hq & Hc & Hin).
    split; [by exists c | done].
  - intros [(c & Hi & Hq & Hc) Hin]. exists c.
    by apply map_lookup_filter_Some.
Qed.

(** C3. For every question and every selection of choice identifiers,
    [is_get_score] returns [True] exactly when the number of correct choices
    of the question equals the number of selected identifiers that are
    correct choices of that question. *)
Theorem is_get_score_iff_counts_equal (d : DB) (question : Z) (selected_ids : list Z) :
  is_get_score d question selected_ids = true ↔
  spec_total_correct d question = spec_selected_correct d question selected_ids.
Proof.
  unfold is_get_score.
  rewrite count_correct_choices_spec, count_selected_correct_spec.
  case_decide as H; split; intros H'; try done.
  - lia.
  - exfalso. apply H. by rewrite H'.
Qed.

(** C10. A question without correct choices is scored [True] by
    [is_get_score] whatever identifiers are selected: the empty list,
    incorrect choices only, or anything else. *)
Theorem is_get_score_no_correct_choice (d : DB) (question : Z) (selected_ids : list Z) :
  count (correct_choices d question) = 0 →
  is_get_score d question selected_ids = true.
Proof.
  intros H0. apply is_get_score_all_selected. intros i c Hi.
  assert (correct_choices d question = ∅) as Hempty.
  { apply map_size_empty_iff. unfold count in H0. lia. }
  rewrite Hempty in Hi. by rewrite lookup_empty in Hi.
Qed.

Lemma is_get_score_no_correct_choice_witness :
  is_get_score no_correct_db 1 [1; 2] = true.
Proof. apply is_get_score_no_correct_choice. vm_compute. reflexivity. Defined.

(** ** The two evaluators *)

Lemma user_choice_lookup d sid q i c :
  user_choices_for_question (selected_choices d sid) q !! i = Some c ↔
  choices d !! i = Some c ∧ (sid, i) ∈ submission_choices d ∧ choice_question c = q.
Proof.
  unfold user_choices_for_question, selected_choices.
  rewrite !map_lookup_filter_Some. simpl. tauto.
Qed.

(** The set comparison holds exactly when the selected choices of the
    question are its correct choices. *)
Lemma sets_equal_iff d sid q :
  sets_equal d (selected_choices d sid) q ↔
  ∀ i c, choices d !! i = Some c → choice_question c = q →
         (is_correct c = true ↔ (sid, i) ∈ submission_choices d).
Proof.
  unfold sets_equal. split.
  - intros Heq i c Hi Hq.
    assert (i ∈ dom (correct_choices d q)
            ↔ i ∈ dom (user_choices_for_question (selected_choices d sid) q)) as Hd
      by (by rewrite Heq).
    rewrite !elem_of_dom in Hd. unfold is_Some in Hd. split.
    + intros Hc. destruct Hd as [Hd _].
      destruct Hd as [c' Hc']; [exists c; by apply correct_choice_lookup|].
      apply user_choice_lookup in Hc'. tauto.
    + intros Hs. destruct Hd as [_ Hd].
      destruct Hd as [c' Hc']; [exists c; by apply user_choice_lookup|].
      apply correct_choice_lookup in Hc' as (Hi' & _ & Hc'). by simplify_eq.
  - intros Hall. apply set_eq. intros i. rewrite !elem_of_dom. unfold is_Some.
    split; intros [c Hc]; exists c.
    + apply correct_choice_lookup in Hc as (Hi & Hq & Hc).
      apply user_choice_lookup. split; [done|]. split; [|done].
      by apply (Hall i c).
    + apply user_choice_lookup in Hc as (Hi & Hs & Hq).
      apply correct_choice_lookup. split; [done|]. split; [done|].
      by apply (Hall i c).
Qed.

(** C2. The evaluators disagree: when a question has a correct choice and
    the selection holds all its correct choices and one incorrect choice of
    the same question, [is_get_score] passes the question and the set
    comparison of [show_exam_result] fails it (and awards no points). *)
Theorem evaluators_disagree_on_extra_choice
    (d : DB) (submission_id question : Z) (q : Question)
    (selected_ids : list Z) (extra : Z) (c : Choice) :
  (∀ i, i ∈ selected_ids ↔ (submission_id, i) ∈ submission_choices d) →
  correct_choices d question ≠ ∅ →
  (∀ i c', correct_choices d question !! i = Some c' → i ∈ selected_ids) →
  choices d !! extra = Some c →
  choice_question c = question →
  is_correct c = false →
  extra ∈ selected_ids →
  is_get_score d question selected_ids = true
  ∧ ¬ sets_equal d (selected_choices d submission_id) question
  ∧ awarded_points d (selected_choices d submission_id) (question, q) = 0.
Proof.
  intros Hsel _ Hall Hextra Hq Hc Hin.
  assert (¬ sets_equal d (selected_choices d submission_id) question) as Hne.
  { intros Heq. rewrite sets_equal_iff in Heq.
    specialize (Heq extra c Hextra Hq) as [_ Heq].
    rewrite Heq in Hc; [done|]. by apply Hsel. }
  split; [by apply is_get_score_all_selected|]. split; [done|].
  unfold awarded_points, grade_question. simpl. by case_decide.
Qed.

Lemma evaluators_disagree_on_extra_choice_witness :
  is_get_score extra_choice_db 1 [1; 2; 4] = true
  ∧ ¬ sets_equal extra_choice_db (selected_choices extra_choice_db 1) 1
  ∧ awarded_points extra_choice_db (selected_choices extra_choice_db 1)
      (1, mkQuestion 1 "Q1" 50) = 0.
Proof.
  apply (evaluators_disagree_on_extra_choice extra_choice_db 1 1
           (mkQuestion 1 "Q1" 50) [1; 2; 4] 4 (mkChoice 1 "D" false)).
  - intros i. rewrite !elem_of_cons, elem_of_nil.
    change (submission_choices extra_choice_db) with ({[ (1, 1); (1, 2); (1, 4) ]} : gset (Z * Z)).
    rewrite !elem_of_union, !elem_of_singleton.
    split; [intros [->|[->|[->|[]]]]; auto | intros [[H|H]|H]; simplify_eq; auto].
  - intros H. apply (f_equal (λ m : gmap Z Choice, m !! 1)) in H. vm_compute in H. done.
  - intros i c' Hi. apply correct_choice_lookup in Hi as (Hi & Hq & Hc).
    change (choices extra_choice_db) with
      ({[ 1 := mkChoice 1 "A" true; 2 := mkChoice 1 "B" true;
          3 := mkChoice 2 "C" true; 4 := mkChoice 1 "D" false ]} : gmap Z Choice) in Hi.
    destruct (decide (i = 1)) as [->|]; [set_solver|].
    destruct (decide (i = 2)) as [->|]; [set_solver|].
    destruct (decide (i = 3)) as [->|]; [simplify_map_eq; done|].
    destruct (decide (i = 4)) as [->|]; [simplify_map_eq; done|].
    simplify_map_eq.
  - vm_compute. reflexivity.
  - reflexivity.
  - reflexivity.
  - set_solver.
Defined.

(** ** show_exam_result *)

Lemma awarded_points_eq d selected q :
  awarded_points d selected q
  = if decide (sets_equal d selected q.1) then grade q.2 else 0.
Proof. unfold awarded_points, grade_question. by case_decide. Qed.

Lemma sum_cons (x : Z) (l : list Z) : sum (x :: l) = x + sum l.
Proof. reflexivity. Qed.

(** The loop accumulates the points of the questions it visits. *)
Lemma grading_loop_sum d selected (qs : list (Z * Question)) (total_score : Z) :
  foldl (grade_question d selected) total_score qs
  = total_score + sum (awarded_points d selected <$> qs).
Proof.
  revert total_score. induction qs as [|q qs IH]; intros total_score.
  - cbn [foldl]. rewrite fmap_nil. unfold sum. simpl. lia.
  - cbn [foldl]. rewrite IH, fmap_cons, sum_cons, awarded_points_eq.
    unfold grade_question. case_decide; lia.
Qed.

Lemma sum_zero (l : list Z) : (∀ x, x ∈ l → x = 0) → sum l = 0.
Proof.
  induction l as [|x l IH]; intros H; [done|].
  rewrite sum_cons, (H x), IH; [done| |].
  - intros y Hy. apply H, elem_of_cons. by right.
  - apply elem_of_cons. by left.
Qed.

(** C1, as the code has it.  For an existing course and submission the
    result page is rendered with a score that is the sum of the points
    awarded per question of the course; a question is awarded its grade when
    the set of choices selected for it equals the set of its correct choices
    and nothing otherwise, so for a question with a positive grade the
    awarded points are positive exactly when the two sets are equal; the
    score is 0 when no question matches. *)
Theorem show_exam_result_score
    (w : World) (request : HttpRequest) (course_id submission_id : Z)
    (course : Course) (submission : Submission) :
  courses (db w) !! course_id = Some course →
  submissions (db w) !! submission_id = Some submission →
  let selected := selected_choices (db w) submission_id in
  let qs := map_to_list (question_set (db w) course_id) in
  ∃ context,
    show_exam_result request course_id submission_id w
    = (w, Ok (render "onlinecourse/exam_result_bootstrap.html" context))
    ∧ context !! "grade" = Some (VInt (sum (awarded_points (db w) selected <$> qs)))
    ∧ (∀ q, q ∈ qs →
         awarded_points (db w) selected q
         = if decide (sets_equal (db w) selected q.1) then grade q.2 else 0)
    ∧ (∀ q, q ∈ qs → 0 < grade q.2 →
         (0 < awarded_points (db w) selected q ↔ sets_equal (db w) selected q.1))
    ∧ ((∀ q, q ∈ qs → ¬ sets_equal (db w) selected q.1) →
       sum (awarded_points (db w) selected <$> qs) = 0).
Proof.
  intros Hc Hs selected qs.
  eexists. split; [|split; [|split; [|split]]].
  - unfold show_exam_result, mbind, View_bind, query, lift, get_object_or_404,
      mret, View_ret.
    simpl. rewrite Hc, Hs. simpl. reflexivity.
  - rewrite lookup_insert_ne by done. rewrite lookup_insert_eq.
    rewrite grading_loop_sum. f_equal.
  - intros q _. apply awarded_points_eq.
  - intros q _ Hg. rewrite awarded_points_eq. case_decide; split; try done; lia.
  - intros Hnone. apply sum_zero. intros x Hx.
    apply list_elem_of_fmap in Hx as (q & -> & Hq).
    rewrite awarded_points_eq. case_decide; [|done]. by destruct (Hnone q Hq).
Qed.

Lemma show_exam_result_score_witness :
  let w := mkWorld zero_grade_db None in
  let selected := selected_choices zero_grade_db 1 in
  let qs := map_to_list (question_set zero_grade_db 1) in
  ∃ context,
    show_exam_result (demo_request []) 1 1 w
    = (w, Ok (render "onlinecourse/exam_result_bootstrap.html" context))
    ∧ context !! "grade" = Some (VInt (sum (awarded_points zero_grade_db selected <$> qs))).
Proof.
  intros w selected qs.
  destruct (show_exam_result_score w (demo_request []) 1 1
              (mkCourse "C" "c.png" "a course" None 1) (mkSubmission 1))
    as (context & Hrun & Hgrade & _).
  - vm_compute. reflexivity.
  - vm_compute. reflexivity.
  - exists context. split; assumption.
Defined.

(** C1, as the specification words it, fails on a question worth no points:
    the learner selects exactly the correct choices and is awarded 0. *)
Lemma awarded_points_zero_grade_counterexample :
  let selected := selected_choices zero_grade_db 1 in
  let qs := map_to_list (question_set zero_grade_db 1) in
  ¬ (∀ q, q ∈ qs →
       (0 < awarded_points zero_grade_db selected q
        ↔ sets_equal zero_grade_db selected q.1)).
Proof.
  intros selected qs H.
  specialize (H (1, mkQuestion 1 "Q" 0)). destruct H as [_ H].
  - apply elem_of_map_to_list. vm_compute. reflexivity.
  - assert (awarded_points zero_grade_db selected (1, mkQuestion 1 "Q" 0) = 0) as E
      by (vm_compute; reflexivity).
    rewrite E in H. assert (0 < 0); [|lia]. apply H.
    apply (bool_decide_unpack _). vm_compute. exact I.
Qed.

(** ** enroll *)

Lemma check_if_enrolled_true d uid course_id :
  check_if_enrolled d uid course_id = true ↔
  ∃ eid e, enrollments d !! eid = Some e
           ∧ enrollment_user e = uid ∧ enrollment_course e = course_id.
Proof.
  unfold check_if_enrolled. rewrite bool_decide_eq_true, count_pos_iff.
  unfold enrollments_of. split.
  - intros (eid & e & H). apply map_lookup_filter_Some in H as [H [H1 H2]].
    by exists eid, e.
  - intros (eid & e & H & H1 & H2). exists eid, e.
    by apply map_lookup_filter_Some.
Qed.

Lemma check_if_enrolled_false d uid course_id :
  check_if_enrolled d uid course_id = false ↔ enrollments_of d uid course_id = ∅.
Proof.
  unfold check_if_enrolled. rewrite bool_decide_eq_false.
  rewrite <- map_size_empty_iff. unfold count. lia.
Qed.

Lemma enroll_unknown_course request course_id w :
  courses (db w) !! course_id = None →
  enroll request course_id w = (w, Raise Http404).
Proof.
  intros H. unfold enroll, mbind, View_bind, query, lift, get_object_or_404.
  simpl. by rewrite H.
Qed.

Lemma enroll_anonymous request course_id course w :
  user request = None →
  courses (db w) !! course_id = Some course →
  enroll request course_id w
  = (w, Ok (redirect "onlinecourse:course_details" [course_id])).
Proof.
  intros Hu H. unfold enroll, mbind, View_bind, query, lift, get_object_or_404.
  simpl. by rewrite H, Hu.
Qed.

Lemma enroll_already_enrolled request course_id course uid w :
  user request = Some uid →
  courses (db w) !! course_id = Some course →
  check_if_enrolled (db w) uid course_id = true →
  enroll request course_id w
  = (w, Ok (redirect "onlinecourse:course_details" [course_id])).
Proof.
  intros Hu H He. unfold enroll, mbind, View_bind, query, lift, get_object_or_404.
  simpl. by rewrite H, Hu, He.
Qed.

Lemma enroll_not_enrolled request course_id course uid w :
  user request = Some uid →
  courses (db w) !! course_id = Some course →
  check_if_enrolled (db w) uid course_id = false →
  enroll request course_id w
  = (mkWorld (enrolled_db (db w) uid course_id (now request) course) (session w),
     Ok (redirect "onlinecourse:course_details" [course_id])).
Proof.
  intros Hu H He. unfold enroll, mbind, View_bind, query, lift, get_object_or_404.
  simpl. rewrite H, Hu, He. reflexivity.
Qed.

Lemma enrollments_of_enrolled_db d uid course_id today course :
  enrollments_of (enrolled_db d uid course_id today course) uid course_id
  = <[next_pk (enrollments d) := mkEnrollment uid course_id today "honor"]>
      (enrollments_of d uid course_id).
Proof.
  unfold enrollments_of, enrolled_db. simpl.
  by rewrite map_filter_insert_True.
Qed.

Lemma enrollments_of_fresh d uid course_id :
  enrollments_of d uid course_id !! next_pk (enrollments d) = None.
Proof.
  unfold enrollments_of. apply map_lookup_filter_None. left. apply next_pk_fresh.
Qed.

Lemma check_if_enrolled_enrolled_db d uid course_id today course :
  check_if_enrolled (enrolled_db d uid course_id today course) uid course_id = true.
Proof.
  apply check_if_enrolled_true.
  exists (next_pk (enrollments d)), (mkEnrollment uid course_id today "honor").
  unfold enrolled_db. simpl. by rewrite lookup_insert_eq.
Qed.

(** C4. For an authenticated account and an existing course without an
    enrollment row for the pair, one call to [enroll] adds exactly one row to
    the enrollment table, for that pair and with mode "honor", and raises the
    stored [total_enrollment] of the course by exactly 1; nothing else in
    the store changes. *)
Theorem enroll_creates_one_enrollment
    (w : World) (request : HttpRequest) (course_id uid : Z) (course : Course) :
  user request = Some uid →
  courses (db w) !! course_id = Some course →
  enrollments_of (db w) uid course_id = ∅ →
  let w' := run (enroll request course_id) w in
  let eid := next_pk (enrollments (db w)) in
  enroll request course_id w
  = (w', Ok (redirect "onlinecourse:course_details" [course_id]))
  ∧ enrollments (db w) !! eid = None
  ∧ enrollments (db w')
    = <[eid := mkEnrollment uid course_id (now request) "honor"]> (enrollments (db w))
  ∧ count (enrollments (db w')) = count (enrollments (db w)) + 1
  ∧ count (enrollments_of (db w') uid course_id) = 1
  ∧ stored_total_enrollment (db w') course_id = Some (total_enrollment course + 1)
  ∧ courses (db w') = <[course_id := incr_total_enrollment course]> (courses (db w))
  ∧ users (db w') = users (db w)
  ∧ questions (db w') = questions (db w)
  ∧ choices (db w') = choices (db w)
  ∧ submissions (db w') = submissions (db w)
  ∧ submission_choices (db w') = submission_choices (db w)
  ∧ session w' = session w.
Proof.
  intros Hu Hc Hnone w' eid.
  assert (enroll request course_id w
          = (mkWorld (enrolled_db (db w) uid course_id (now request) course) (session w),
             Ok (redirect "onlinecourse:course_details" [course_id]))) as Hrun.
  { apply enroll_not_enrolled; [done..|]. by apply check_if_enrolled_false. }
  assert (w' = mkWorld (enrolled_db (db w) uid course_id (now request) course)
                       (session w)) as ->.
  { unfold w', run. by rewrite Hrun. }
  simpl. repeat split; try done.
  - apply next_pk_fresh.
  - unfold count. rewrite map_size_insert_None by apply next_pk_fresh. lia.
  - rewrite enrollments_of_enrolled_db, Hnone. unfold count.
    rewrite insert_empty, map_size_singleton. done.
  - unfold stored_total_enrollment, enrolled_db. simpl.
    by rewrite lookup_insert_eq.
Qed.

Lemma enroll_creates_one_enrollment_witness :
  enrollments (db (run (enroll (demo_request []) 1) (mkWorld demo_db None)))
  = <[1 := mkEnrollment 1 1 20000 "honor"]> ∅
  ∧ stored_total_enrollment
      (db (run (enroll (demo_request []) 1) (mkWorld demo_db None))) 1
    = Some 1.
Proof.
  destruct (enroll_creates_one_enrollment (mkWorld demo_db None)
              (demo_request []) 1 1 (mkCourse "C" "c.png" "a course" None 0))
    as (_ & _ & He & _ & _ & Ht & _).
  - reflexivity.
  - vm_compute. reflexivity.
  - vm_compute. reflexivity.
  - split; [exact He | exact Ht].
Defined.

(** A second call changes nothing, whoever calls and whatever the store. *)
Lemma enroll_idempotent (w : World) (request1 request2 : HttpRequest) (course_id : Z) :
  user request1 = user request2 →
  run (enroll request2 course_id) (run (enroll request1 course_id) w)
  = run (enroll request1 course_id) w.
Proof.
  intros Hu. unfold run.
  destruct (courses (db w) !! course_id) as [course|] eqn:Hc.
  2:{ rewrite (enroll_unknown_course request1) by done. simpl.
      by rewrite enroll_unknown_course. }
  destruct (user request1) as [uid|] eqn:Hu1.
  2:{ rewrite (enroll_anonymous request1 _ course) by done. simpl.
      by rewrite (enroll_anonymous request2 _ course). }
  destruct (check_if_enrolled (db w) uid course_id) eqn:He.
  - rewrite (enroll_already_enrolled request1 _ course uid) by done. simpl.
    by rewrite (enroll_already_enrolled request2 _ course uid).
  - rewrite (enroll_not_enrolled request1 _ course uid) by done. simpl.
    rewrite (enroll_already_enrolled request2 _ (incr_total_enrollment course) uid);
      [done|done| |].
    + simpl. by rewrite lookup_insert_eq.
    + apply check_if_enrolled_enrolled_db.
Qed.

(** [enroll] keeps at most one enrollment row per pair. *)
Lemma enroll_preserves_enrollment_unique (w : World) (request : HttpRequest) (course_id : Z) :
  enrollment_unique (db w) →
  enrollment_unique (db (run (enroll request course_id) w)).
Proof.
  intros Hinv. unfold run.
  destruct (courses (db w) !! course_id) as [course|] eqn:Hc.
  2:{ by rewrite enroll_unknown_course. }
  destruct (user request) as [uid|] eqn:Hu.
  2:{ by rewrite (enroll_anonymous request _ course). }
  destruct (check_if_enrolled (db w) uid course_id) eqn:He.
  { by rewrite (enroll_already_enrolled request _ course uid). }
  rewrite (enroll_not_enrolled request _ course uid) by done. simpl.
  intros uid' course_id'.
  destruct (decide (uid' = uid ∧ course_id' = course_id)) as [[-> ->]|Hne].
  - apply check_if_enrolled_false in He.
    rewrite enrollments_of_enrolled_db, He. unfold count.
    rewrite insert_empty, map_size_singleton. lia.
  - specialize (Hinv uid' course_id').
    unfold enrollments_of, enrolled_db in *. simpl.
    rewrite map_filter_insert_False by (simpl; intros [? ?]; apply Hne; done).
    rewrite delete_id by apply next_pk_fresh. done.
Qed.

(** C5. In sequential execution, from a store with at most one enrollment
    row for the pair, two calls to [enroll] by the same authenticated account
    for the same course leave exactly one row for the pair; the second call
    leaves the store as the first left it, so [total_enrollment] is what a
    single enrollment makes it, at most 1 above its initial value. *)
Theorem enroll_twice
    (w : World) (request1 request2 : HttpRequest) (course_id uid : Z)
    (course : Course) :
  user request1 = Some uid →
  user request2 = Some uid →
  courses (db w) !! course_id = Some course →
  count (enrollments_of (db w) uid course_id) ≤ 1 →
  let w1 := run (enroll request1 course_id) w in
  let w2 := run (enroll request2 course_id) w1 in
  w2 = w1
  ∧ enroll request2 course_id w1
    = (w1, Ok (redirect "onlinecourse:course_details" [course_id]))
  ∧ count (enrollments_of (db w2) uid course_id) = 1
  ∧ stored_total_enrollment (db w2) course_id
    = stored_total_enrollment (db w1) course_id
  ∧ ∃ total, stored_total_enrollment (db w2) course_id = Some total
             ∧ total_enrollment course ≤ total ≤ total_enrollment course + 1.
Proof.
  intros Hu1 Hu2 Hc Hle w1 w2.
  assert (w2 = w1) as Hidem.
  { unfold w2, w1. apply enroll_idempotent. congruence. }
  rewrite Hidem. unfold w1, run.
  destruct (check_if_enrolled (db w) uid course_id) eqn:He.
  - rewrite (enroll_already_enrolled request1 _ course uid) by done. simpl.
    split; [done|]. split; [by apply (enroll_already_enrolled _ _ course uid)|].
    split.
    + pose proof (count_nonneg (enrollments_of (db w) uid course_id)).
      unfold check_if_enrolled in He. apply bool_decide_eq_true in He. lia.
    + split; [done|]. exists (total_enrollment course).
      unfold stored_total_enrollment. rewrite Hc. simpl. split; [done|lia].
  - rewrite (enroll_not_enrolled request1 _ course uid) by done. simpl.
    split; [done|]. split.
    { apply (enroll_already_enrolled _ _ (incr_total_enrollment course) uid);
        [done| |apply check_if_enrolled_enrolled_db].
      simpl. by rewrite lookup_insert_eq. }
    split.
    + apply check_if_enrolled_false in He.
      rewrite enrollments_of_enrolled_db, He. unfold count.
      by rewrite insert_empty, map_size_singleton.
    + split; [done|]. exists (total_enrollment course + 1).
      unfold stored_total_enrollment, enrolled_db. simpl.
      rewrite lookup_insert_eq. simpl. split; [done|lia].
Qed.

Lemma enroll_twice_witness :
  let w1 := run (enroll (demo_request []) 1) (mkWorld demo_db None) in
  let w2 := run (enroll (demo_request []) 1) w1 in
  w2 = w1 ∧ count (enrollments_of (db w2) 1 1) = 1.
Proof.
  intros w1 w2.
  destruct (enroll_twice (mkWorld demo_db None) (demo_request []) (demo_request [])
              1 1 (mkCourse "C" "c.png" "a course" None 0))
    as (H1 & _ & H2 & _).
  - reflexivity.
  - reflexivity.
  - vm_compute. reflexivity.
  - vm_compute. discriminate.
  - split; [exact H1 | exact H2].
Defined.

(** ** registration_request *)

Lemma users_named_unique d name uid u :
  username_unique d →
  users d !! uid = Some u → username u = name →
  users_named d name = {[uid := u]}.
Proof.
  intros Huniq Hu Hname. apply map_eq. intros i. apply option_eq. intros x.
  unfold users_named. rewrite map_lookup_filter_Some, lookup_singleton_Some.
  simpl. split.
  - intros [Hi Hx]. assert (i = uid) as -> by (eapply Huniq; eauto; congruence).
    split; [done|]. congruence.
  - intros [<- <-]. done.
Qed.

(** C6. A registration (a POST of the form) with the username of an existing
    account leaves the world as it was, so no account is created and nobody
    is logged in, and answers with the form and a message. *)
Theorem registration_existing_username
    (make_password : string → string) (w : World) (request : HttpRequest)
    (name : string) (uid : Z) (u : User) :
  method request = "POST" →
  POST request !! "username" = Some name →
  username_unique (db w) →
  users (db w) !! uid = Some u →
  username u = name →
  registration_request make_password request w
  = (w, Ok (render "onlinecourse/user_registration_bootstrap.html"
                   (<["message" := VStr "El nombre de usuario ya existe."]> ∅)))
  ∧ users (db (run (registration_request make_password request) w)) = users (db w)
  ∧ session (run (registration_request make_password request) w) = session w.
Proof.
  intros Hm Hp Huniq Hu Hname.
  assert (registration_request make_password request w
          = (w, Ok (render "onlinecourse/user_registration_bootstrap.html"
                      (<["message" := VStr "El nombre de usuario ya existe."]> ∅))))
    as Hrun.
  { unfold registration_request. rewrite Hm.
    case_decide; [done|]. case_decide; [|done].
    unfold mbind, View_bind, lift, getitem, query. rewrite Hp. simpl.
    rewrite (users_named_unique _ _ uid u) by done.
    unfold get. rewrite map_to_list_singleton. reflexivity. }
  split; [done|]. unfold run. by rewrite Hrun.
Qed.

Lemma registration_existing_username_witness :
  registration_request (λ psw, psw)
    (mkRequest "POST" {[ "username" := "ana" ]} None 20000) (mkWorld demo_db None)
  = (mkWorld demo_db None,
     Ok (render "onlinecourse/user_registration_bootstrap.html"
                (<["message" := VStr "El nombre de usuario ya existe."]> ∅))).
Proof.
  refine (proj1 (registration_existing_username (λ psw, psw) (mkWorld demo_db None)
            (mkRequest "POST" {[ "username" := "ana" ]} None 20000)
            "ana" 1 (mkUser "ana" "Ana" "Diaz" "x") _ _ _ _ _)).
  - reflexivity.
  - vm_compute. reflexivity.
  - intros i j ui uj Hi Hj _. simpl in Hi, Hj.
    apply lookup_singleton_Some in Hi as [<- _].
    apply lookup_singleton_Some in Hj as [<- _]. reflexivity.
  - vm_compute. reflexivity.
  - reflexivity.
Defined.

(** Whatever the store, a registration with a username in use writes
    nothing: the accounts and the session stay as they were. *)
Lemma registration_existing_username_world
    (make_password : string → string) (w : World) (request : HttpRequest)
    (name : string) (uid : Z) (u : User) :
  method request = "POST" →
  POST request !! "username" = Some name →
  users (db w) !! uid = Some u →
  username u = name →
  run (registration_request make_password request) w = w.
Proof.
  intros Hm Hp Hu Hname. unfold run, registration_request. rewrite Hm.
  case_decide; [done|]. case_decide; [|done].
  unfold mbind, View_bind, lift, getitem, query. rewrite Hp. simpl.
  unfold get.
  destruct (map_to_list (users_named (db w) name)) as [|row [|row' rows]] eqn:E;
    [|done..].
  apply map_to_list_empty_iff in E.
  assert (users_named (db w) name !! uid = Some u) as Hin.
  { unfold users_named. by apply map_lookup_filter_Some. }
  rewrite E in Hin. by rewrite lookup_empty in Hin.
Qed.

(** ** Unknown identifiers *)

Lemma submit_unknown_course request course_id w :
  courses (db w) !! course_id = None →
  submit request course_id w = (w, Raise Http404).
Proof.
  intros H. unfold submit, mbind, View_bind, query, lift, get_object_or_404.
  simpl. by rewrite H.
Qed.

Lemma show_exam_result_unknown_course request course_id submission_id w :
  courses (db w) !! course_id = None →
  show_exam_result request course_id submission_id w = (w, Raise Http404).
Proof.
  intros H. unfold show_exam_result, mbind, View_bind, query, lift, get_object_or_404.
  simpl. by rewrite H.
Qed.

(** C7, where the code departs from it.  On the result route an unknown
    submission identifier under a known course is no "not found" response:
    [Submission.objects.get] raises [DoesNotExist], nothing catches it, and
    the framework answers with a server error. *)
Theorem show_exam_result_unknown_submission
    (w : World) (request : HttpRequest) (course_id submission_id : Z)
    (course : Course) :
  courses (db w) !! course_id = Some course →
  submissions (db w) !! submission_id = None →
  show_exam_result request course_id submission_id w
  = (w, Raise (DoesNotExist "Submission"))
  ∧ show_exam_result request course_id submission_id w ≠ (w, Raise Http404).
Proof.
  intros Hc Hs.
  assert (show_exam_result request course_id submission_id w
          = (w, Raise (DoesNotExist "Submission"))) as Hrun.
  { unfold show_exam_result, mbind, View_bind, query, lift, get_object_or_404.
    simpl. by rewrite Hc, Hs. }
  split; [done|]. rewrite Hrun. intros H. by simplify_eq.
Qed.

Lemma show_exam_result_unknown_submission_witness :
  show_exam_result (demo_request []) 1 999 (mkWorld demo_db None)
  = (mkWorld demo_db None, Raise (DoesNotExist "Submission")).
Proof.
  refine (proj1 (show_exam_result_unknown_submission (mkWorld demo_db None)
            (demo_request []) 1 999 (mkCourse "C" "c.png" "a course" None 0) _ _)).
  - vm_compute. reflexivity.
  - vm_compute. reflexivity.
Defined.

(** ** submit *)

(** C8. For an account and an existing course without an enrollment row
    for the pair, [submit] fails: the enrollment lookup raises
    [DoesNotExist], which propagates, and the store is left as it was, so no
    submission is created. *)
Theorem submit_without_enrollment
    (w : World) (request : HttpRequest) (course_id uid : Z) (course : Course) :
  user request = Some uid →
  courses (db w) !! course_id = Some course →
  enrollments_of (db w) uid course_id = ∅ →
  submit request course_id w = (w, Raise (DoesNotExist "Enrollment"))
  ∧ submissions (db (run (submit request course_id) w)) = submissions (db w).
Proof.
  intros Hu Hc Hnone.
  assert (submit request course_id w = (w, Raise (DoesNotExist "Enrollment")))
    as Hrun.
  { unfold submit, mbind, View_bind, query, lift, get_object_or_404.
    simpl. rewrite Hc, Hu, Hnone. unfold get. by rewrite map_to_list_empty. }
  split; [done|]. unfold run. by rewrite Hrun.
Qed.

Lemma submit_without_enrollment_witness :
  submit (demo_request [("choice_1", "1")]) 1 (mkWorld demo_db None)
  = (mkWorld demo_db None, Raise (DoesNotExist "Enrollment")).
Proof.
  refine (proj1 (submit_without_enrollment (mkWorld demo_db None)
            (demo_request [("choice_1", "1")]) 1 1
            (mkCourse "C" "c.png" "a course" None 0) _ _ _)).
  - reflexivity.
  - vm_compute. reflexivity.
  - vm_compute. reflexivity.
Defined.

(** ** CourseListView.get_queryset *)

#[local] Instance by_total_enrollment_desc_total : Total by_total_enrollment_desc.
Proof. intros a b. unfold by_total_enrollment_desc. lia. Qed.

#[local] Instance by_total_enrollment_desc_trans : Transitive by_total_enrollment_desc.
Proof. intros a b c. unfold by_total_enrollment_desc. lia. Qed.

Lemma order_by_sorted (table : gmap Z Course) :
  StronglySorted by_total_enrollment_desc (order_by_total_enrollment_desc table).
Proof. apply StronglySorted_merge_sort; apply _. Qed.

Lemma order_by_elem_of (table : gmap Z Course) k c :
  (k, c) ∈ order_by_total_enrollment_desc table ↔ table !! k = Some c.
Proof.
  unfold order_by_total_enrollment_desc.
  rewrite merge_sort_Permutation. apply elem_of_map_to_list.
Qed.

Lemma order_by_length (table : gmap Z Course) :
  length (order_by_total_enrollment_desc table) = size table.
Proof.
  unfold order_by_total_enrollment_desc.
  rewrite merge_sort_Permutation. apply length_map_to_list.
Qed.

(** The slice [[:10]] of the ordered rows: sorted, rows of the table, and
    ahead of every row left out. *)
Lemma top10_spec (table : gmap Z Course) :
  let top := take 10 (order_by_total_enrollment_desc table) in
  length top = (10 `min` size table)%nat
  ∧ StronglySorted by_total_enrollment_desc top
  ∧ (∀ k c, (k, c) ∈ top → table !! k = Some c)
  ∧ (∀ k c, table !! k = Some c → (k, c) ∉ top →
            ∀ r, r ∈ top → total_enrollment c ≤ total_enrollment r.2).
Proof.
  intros top. pose proof (order_by_sorted table) as Hs.
  rewrite <- (take_drop 10 (order_by_total_enrollment_desc table)) in Hs.
  fold top in Hs. split; [|split; [|split]].
  - unfold top. by rewrite length_take, order_by_length.
  - by apply StronglySorted_app_1_l in Hs.
  - intros k c Hin. apply order_by_elem_of.
    rewrite <- (take_drop 10 (order_by_total_enrollment_desc table)).
    apply elem_of_app. by left.
  - intros k c Hk Hnot r Hr.
    apply order_by_elem_of in Hk.
    rewrite <- (take_drop 10 (order_by_total_enrollment_desc table)) in Hk.
    apply elem_of_app in Hk as [Hk|Hk]; [done|].
    apply (StronglySorted_app_1_elem_of _ _ _ r (k, c)) in Hs; done.
Qed.

(** C9. The course list holds at most 10 courses, rows of the course table,
    in descending order of [total_enrollment] (and no course left out has
    more enrollments than one listed); for an authenticated viewer each
    listed course has [is_enrolled] true exactly when an enrollment row
    exists for the viewer and that course. *)
Theorem get_queryset_top_courses (w : World) (request : HttpRequest) :
  ∃ course_list,
    get_queryset request w = (w, Ok course_list)
    ∧ (length course_list ≤ 10)%nat
    ∧ length course_list = (10 `min` size (courses (db w)))%nat
    ∧ StronglySorted
        (λ a b, total_enrollment (fields b) ≤ total_enrollment (fields a))
        course_list
    ∧ (∀ c, c ∈ course_list → courses (db w) !! pk c = Some (fields c))
    ∧ (∀ k row, courses (db w) !! k = Some row →
         (∃ c, c ∈ course_list ∧ pk c = k)
         ∨ (∀ c, c ∈ course_list →
              total_enrollment row ≤ total_enrollment (fields c)))
    ∧ (∀ uid, user request = Some uid →
         ∀ c, c ∈ course_list →
           (is_enrolled c = true ↔
            ∃ eid e, enrollments (db w) !! eid = Some e
                     ∧ enrollment_user e = uid
                     ∧ enrollment_course e = pk c))
    ∧ (user request = None → ∀ c, c ∈ course_list → is_enrolled c = false).
Proof.
  destruct (top10_spec (courses (db w))) as (Hlen & Hsorted & Hrows & Htop).
  set (top := take 10 (order_by_total_enrollment_desc (courses (db w)))) in *.
  set (annotate := λ kc : Z * Course,
         mkCourseInstance kc.1 kc.2
           (match user request with
            | Some uid => check_if_enrolled (db w) uid kc.1
            | None => false
            end)).
  exists (annotate <$> top).
  assert (∀ c, c ∈ annotate <$> top ↔ ∃ kc, c = annotate kc ∧ kc ∈ top) as Hmem.
  { intros c. apply list_elem_of_fmap. }
  split; [|split; [|split; [|split; [|split; [|split; [|split]]]]]].
  - unfold get_queryset, mbind, View_bind, query, mret, View_ret. simpl.
    fold top. destruct (user request) as [uid|] eqn:Hu.
    + simpl. f_equal. f_equal. rewrite <- list_fmap_compose.
      apply list_fmap_ext. intros i [k c] _. unfold annotate. simpl. done.
    + simpl. f_equal.
  - rewrite length_fmap, Hlen. lia.
  - by rewrite length_fmap.
  - eapply StronglySorted_fmap; [|exact Hsorted].
    intros [k1 c1] [k2 c2]. unfold by_total_enrollment_desc, annotate. simpl. done.
  - intros c Hc. apply Hmem in Hc as ([k row] & -> & Hin). simpl.
    by apply Hrows.
  - intros k row Hk. destruct (decide ((k, row) ∈ top)) as [Hin|Hnot].
    + left. exists (annotate (k, row)). split; [|done]. apply Hmem. eauto.
    + right. intros c Hc. apply Hmem in Hc as (r & -> & Hr). simpl.
      by apply (Htop k row).
  - intros uid Hu c Hc. apply Hmem in Hc as ([k row] & -> & Hin).
    unfold annotate. rewrite Hu. simpl. apply check_if_enrolled_true.
  - intros Hu c Hc. apply Hmem in Hc as ([k row] & -> & Hin).
    unfold annotate. by rewrite Hu.
Qed.

Example get_queryset_demo :
  get_queryset (demo_request []) (mkWorld zero_grade_db None)
  = (mkWorld zero_grade_db None,
     Ok [mkCourseInstance 1 (mkCourse "C" "c.png" "a course" None 1) true]).
Proof. vm_compute. reflexivity. Qed.

(** * Further properties of the grading code *)

(** [is_get_score] is [True] exactly when every correct choice of the
    question is among the selected identifiers; identifiers of incorrect
    choices, of other questions or of no choice at all, repetitions and
    order are ignored. *)
Theorem is_get_score_iff_all_correct_selected
    (d : DB) (question : Z) (selected_ids : list Z) :
  is_get_score d question selected_ids = true ↔
  ∀ i, is_correct_choice_of d question i → i ∈ selected_ids.
Proof.
  rewrite is_get_score_all_selected. split.
  - intros H i Hi. apply is_correct_choice_of_lookup in Hi as [c Hc]. by apply (H i c).
  - intros H i c Hc. apply H, is_correct_choice_of_lookup. by exists c.
Qed.

(** Selecting more identifiers never loses the score of [is_get_score]. *)
Theorem is_get_score_monotone (d : DB) (question : Z) (ids ids' : list Z) :
  ids ⊆ ids' →
  is_get_score d question ids = true →
  is_get_score d question ids' = true.
Proof.
  intros Hsub H. apply is_get_score_all_selected. intros i c Hi.
  apply Hsub. revert i c Hi. by apply is_get_score_all_selected.
Qed.

Lemma is_get_score_monotone_witness :
  is_get_score demo_db 1 [1; 2; 3; 4; 99] = true.
Proof.
  apply (is_get_score_monotone demo_db 1 [1; 2]).
  - intros i Hi. apply elem_of_cons in Hi as [->|Hi]; [set_solver|].
    apply elem_of_cons in Hi as [->|Hi]; [set_solver|]. by apply elem_of_nil in Hi.
  - vm_compute. reflexivity.
Defined.

(** Whenever the result page awards a question to a submission,
    [is_get_score] scores the submission's identifiers too. *)
Theorem sets_equal_is_get_score
    (d : DB) (submission_id question : Z) (ids : list Z) :
  (∀ i, (submission_id, i) ∈ submission_choices d → i ∈ ids) →
  sets_equal d (selected_choices d submission_id) question →
  is_get_score d question ids = true.
Proof.
  intros Hids Heq. apply is_get_score_all_selected. intros i c Hi.
  apply correct_choice_lookup in Hi as (Hi & Hq & Hc).
  apply Hids. rewrite sets_equal_iff in Heq. by apply (Heq i c Hi Hq).
Qed.

Lemma sets_equal_is_get_score_witness :
  is_get_score full_marks_db 1 [3; 2; 1] = true.
Proof.
  apply (sets_equal_is_get_score full_marks_db 1 1 [3; 2; 1]).
  - intros i Hi.
    change (submission_choices full_marks_db)
      with ({[ (1, 1); (1, 2); (1, 3) ]} : gset (Z * Z)) in Hi.
    rewrite !elem_of_union, !elem_of_singleton in Hi.
    destruct Hi as [[Hi|Hi]|Hi]; simplify_eq; set_solver.
  - apply (bool_decide_unpack _). vm_compute. exact I.
Defined.

(** [is_get_score] looks only at which correct choices of the question are
    selected: other identifiers, repetitions and order do not matter. *)
Theorem is_get_score_depends_on_correct_choices
    (d : DB) (question : Z) (ids ids' : list Z) :
  (∀ i, is_correct_choice_of d question i → (i ∈ ids ↔ i ∈ ids')) →
  is_get_score d question ids = is_get_score d question ids'.
Proof.
  intros Hagree.
  assert (∀ l l', (∀ i, is_correct_choice_of d question i → (i ∈ l ↔ i ∈ l')) →
                  is_get_score d question l = true →
                  is_get_score d question l' = true) as Hone.
  { intros l l' H Hl. apply is_get_score_all_selected. intros i c Hi.
    apply H; [apply is_correct_choice_of_lookup; eauto|].
    revert i c Hi. by apply is_get_score_all_selected. }
  destruct (is_get_score d question ids) eqn:E1,
           (is_get_score d question ids') eqn:E2; try done.
  - rewrite (Hone ids ids') in E2; done.
  - rewrite (Hone ids' ids) in E1; [done| |done].
    intros i Hi. symmetry. by apply Hagree.
Qed.

Lemma is_get_score_depends_on_correct_choices_witness :
  is_get_score demo_db 1 [2; 1; 1; 77] = is_get_score demo_db 1 [1; 2].
Proof.
  apply is_get_score_depends_on_correct_choices. intros i Hc.
  rewrite !elem_of_cons, !elem_of_nil.
  split.
  - intros [->|[->|[->|[->|[]]]]]; auto.
    exfalso. destruct Hc as (c & Hc & _). vm_compute in Hc. discriminate.
  - intros [->|[->|[]]]; auto.
Defined.

(** ** The score of the result page *)

Lemma show_exam_result_run w request course_id submission_id course submission :
  courses (db w) !! course_id = Some course →
  submissions (db w) !! submission_id = Some submission →
  show_exam_result request course_id submission_id w
  = (w, Ok (render "onlinecourse/exam_result_bootstrap.html"
              (<["choices" := VChoices (selected_choices (db w) submission_id)]>
                 (<["grade" := VInt (sum (awarded_points (db w)
                                            (selected_choices (db w) submission_id)
                                          <$> map_to_list (question_set (db w) course_id)))]>
                    (<["course" := VCourse course_id course]> ∅))))).
Proof.
  intros Hc Hs.
  unfold show_exam_result, mbind, View_bind, query, lift, get_object_or_404,
    mret, View_ret.
  simpl. rewrite Hc, Hs. simpl. rewrite grading_loop_sum. do 5 f_equal.
Qed.

Lemma response_grade_show_exam_result w request course_id submission_id course submission :
  courses (db w) !! course_id = Some course →
  submissions (db w) !! submission_id = Some submission →
  response_grade (show_exam_result request course_id submission_id w)
  = Some (VInt (sum (awarded_points (db w) (selected_choices (db w) submission_id)
                     <$> map_to_list (question_set (db w) course_id)))).
Proof.
  intros Hc Hs. rewrite (show_exam_result_run _ _ _ _ course submission) by done.
  unfold response_grade. simpl.
  rewrite lookup_insert_ne by done. by rewrite lookup_insert_eq.
Qed.

Lemma question_set_elem_of d course_id qid q :
  (qid, q) ∈ map_to_list (question_set d course_id) ↔
  questions d !! qid = Some q ∧ question_course q = course_id.
Proof.
  rewrite elem_of_map_to_list. unfold question_set.
  by rewrite map_lookup_filter_Some.
Qed.

Lemma sum_bounds (f g : Z * Question → Z) (qs : list (Z * Question)) :
  (∀ q, q ∈ qs → 0 ≤ f q ≤ g q) → 0 ≤ sum (f <$> qs) ≤ sum (g <$> qs).
Proof.
  induction qs as [|q qs IH]; intros H.
  - rewrite !fmap_nil. unfold sum. simpl. lia.
  - rewrite !fmap_cons, !sum_cons.
    assert (0 ≤ f q ≤ g q) by (apply H, elem_of_cons; by left).
    assert (0 ≤ sum (f <$> qs) ≤ sum (g <$> qs)).
    { apply IH. intros q' Hq'. apply H, elem_of_cons. by right. }
    lia.
Qed.

Lemma sum_ext (f g : Z * Question → Z) (qs : list (Z * Question)) :
  (∀ q, q ∈ qs → f q = g q) → sum (f <$> qs) = sum (g <$> qs).
Proof.
  intros H. f_equal. apply list_fmap_ext. intros i q Hq. apply H.
  by apply list_elem_of_lookup_2 in Hq.
Qed.

(** When no question of the course has a negative grade, the score of the
    result page lies between 0 and the sum of the grades of the course's
    questions. *)
Theorem exam_score_bounds
    (w : World) (request : HttpRequest) (course_id submission_id : Z)
    (course : Course) (submission : Submission) :
  courses (db w) !! course_id = Some course →
  submissions (db w) !! submission_id = Some submission →
  (∀ qid q, questions (db w) !! qid = Some q → question_course q = course_id →
            0 ≤ grade q) →
  ∃ total,
    response_grade (show_exam_result request course_id submission_id w)
    = Some (VInt total)
    ∧ 0 ≤ total
        ≤ sum ((λ q, grade q.2) <$> map_to_list (question_set (db w) course_id)).
Proof.
  intros Hc Hs Hpos. eexists. split.
  - by apply (response_grade_show_exam_result _ _ _ _ course submission).
  - apply sum_bounds. intros [qid q] Hq. apply question_set_elem_of in Hq as [Hq Hcq].
    rewrite awarded_points_eq. specialize (Hpos qid q Hq Hcq). simpl.
    case_decide; lia.
Qed.

Lemma exam_score_bounds_witness :
  ∃ total,
    response_grade (show_exam_result (demo_request []) 1 1 (mkWorld extra_choice_db None))
    = Some (VInt total)
    ∧ 0 ≤ total ≤ 100.
Proof.
  destruct (exam_score_bounds (mkWorld extra_choice_db None) (demo_request []) 1 1
              (mkCourse "C" "c.png" "a course" None 0) (mkSubmission 1))
    as (total & Hg & Hb).
  - vm_compute. reflexivity.
  - vm_compute. reflexivity.
  - intros qid q Hq _. simpl in Hq.
    change (questions demo_db)
      with ({[ 1 := mkQuestion 1 "Q1" 50; 2 := mkQuestion 1 "Q2" 50 ]} : gmap Z Question) in Hq.
    destruct (decide (qid = 1)) as [->|]; [by simplify_map_eq|].
    destruct (decide (qid = 2)) as [->|]; [by simplify_map_eq|].
    by simplify_map_eq.
  - exists total. split; [exact Hg|exact Hb].
Defined.

(** A submission whose selection for every question of the course is
    exactly the question's set of correct choices earns the sum of all the
    grades of the course's questions. *)
Theorem exam_full_marks
    (w : World) (request : HttpRequest) (course_id submission_id : Z)
    (course : Course) (submission : Submission) :
  courses (db w) !! course_id = Some course →
  submissions (db w) !! submission_id = Some submission →
  (∀ i c q, choices (db w) !! i = Some c →
            questions (db w) !! choice_question c = Some q →
            question_course q = course_id →
            (is_correct c = true ↔ (submission_id, i) ∈ submission_choices (db w))) →
  response_grade (show_exam_result request course_id submission_id w)
  = Some (VInt (sum ((λ q, grade q.2)
                     <$> map_to_list (question_set (db w) course_id)))).
Proof.
  intros Hc Hs Hall.
  rewrite (response_grade_show_exam_result _ _ _ _ course submission) by done.
  do 2 f_equal. apply sum_ext. intros [qid q] Hq.
  apply question_set_elem_of in Hq as [Hq Hcq].
  rewrite awarded_points_eq. simpl. case_decide as Hne; [done|].
  exfalso. apply Hne. apply sets_equal_iff. intros i c Hi Hqc. subst qid.
  by apply (Hall i c q).
Qed.

Lemma exam_full_marks_witness :
  response_grade (show_exam_result (demo_request []) 1 1 (mkWorld full_marks_db None))
  = Some (VInt 100).
Proof.
  refine (exam_full_marks (mkWorld full_marks_db None) (demo_request []) 1 1
            (mkCourse "C" "c.png" "a course" None 0) (mkSubmission 1) _ _ _).
  - vm_compute. reflexivity.
  - vm_compute. reflexivity.
  - intros i c q Hi _ _. simpl in *.
    change (submission_choices full_marks_db)
      with ({[ (1, 1); (1, 2); (1, 3) ]} : gset (Z * Z)).
    change (choices demo_db) with
      ({[ 1 := mkChoice 1 "A" true; 2 := mkChoice 1 "B" true;
          3 := mkChoice 2 "C" true; 4 := mkChoice 1 "D" false ]} : gmap Z Choice) in Hi.
    rewrite !elem_of_union, !elem_of_singleton.
    destruct (decide (i = 1)) as [->|]; [simplify_map_eq; simpl; tauto|].
    destruct (decide (i = 2)) as [->|]; [simplify_map_eq; simpl; tauto|].
    destruct (decide (i = 3)) as [->|]; [simplify_map_eq; simpl; tauto|].
    destruct (decide (i = 4)) as [->|].
    + simplify_map_eq. simpl. split; [done|]. intros [[H|H]|H]; by simplify_eq.
    + by simplify_map_eq.
Defined.

(** Two submissions that select the same choices among those of the
    course's questions get the same score: what else they select (choices of
    other courses' questions, identifiers of no choice) does not count. *)
Theorem exam_score_depends_on_course_choices
    (w : World) (request : HttpRequest) (course_id sid1 sid2 : Z)
    (course : Course) (s1 s2 : Submission) :
  courses (db w) !! course_id = Some course →
  submissions (db w) !! sid1 = Some s1 →
  submissions (db w) !! sid2 = Some s2 →
  (∀ i c q, choices (db w) !! i = Some c →
            questions (db w) !! choice_question c = Some q →
            question_course q = course_id →
            ((sid1, i) ∈ submission_choices (db w)
             ↔ (sid2, i) ∈ submission_choices (db w))) →
  response_grade (show_exam_result request course_id sid1 w)
  = response_grade (show_exam_result request course_id sid2 w).
Proof.
  intros Hc H1 H2 Hagree.
  rewrite (response_grade_show_exam_result _ _ _ _ course s1) by done.
  rewrite (response_grade_show_exam_result _ _ _ _ course s2) by done.
  do 2 f_equal. apply sum_ext. intros [qid q] Hq.
  apply question_set_elem_of in Hq as [Hq Hcq].
  rewrite !awarded_points_eq. simpl.
  assert (sets_equal (db w) (selected_choices (db w) sid1) qid
          ↔ sets_equal (db w) (selected_choices (db w) sid2) qid) as Hiff.
  { rewrite !sets_equal_iff. split; intros H i c Hi Hqc; subst qid.
    - rewrite <- (Hagree i c q) by done. by apply H.
    - rewrite (Hagree i c q) by done. by apply H. }
  repeat case_decide; tauto.
Qed.

Lemma exam_score_depends_on_course_choices_witness :
  response_grade (show_exam_result (demo_request []) 1 1 (mkWorld blank_db None))
  = response_grade (show_exam_result (demo_request []) 1 2 (mkWorld blank_db None)).
Proof.
  refine (exam_score_depends_on_course_choices (mkWorld blank_db None)
            (demo_request []) 1 1 2 (mkCourse "C" "c.png" "a course" None 1)
            (mkSubmission 1) (mkSubmission 1) _ _ _ _).
  - vm_compute. reflexivity.
  - vm_compute. reflexivity.
  - vm_compute. reflexivity.
  - intros i c q Hi Hq Hcq. simpl in *.
    rewrite !elem_of_singleton.
    destruct (decide (i = 3)) as [->|Hne].
    + exfalso. vm_compute in Hi. injection Hi as <-. vm_compute in Hq.
      injection Hq as <-. vm_compute in Hcq. discriminate.
    + split; intros H; simplify_eq.
Defined.

(** A question for which the submission selects nothing is awarded its
    grade exactly when it has no correct choice: a blank answer scores on
    such a question and on no other. *)
Theorem blank_answer_awarded
    (d : DB) (submission_id qid : Z) (q : Question) :
  (∀ i c, choices d !! i = Some c → choice_question c = qid →
          (submission_id, i) ∉ submission_choices d) →
  awarded_points d (selected_choices d submission_id) (qid, q)
  = if decide (correct_choices d qid = ∅) then grade q else 0.
Proof.
  intros Hblank. rewrite awarded_points_eq. simpl.
  assert (sets_equal d (selected_choices d submission_id) qid
          ↔ correct_choices d qid = ∅) as Hiff.
  { rewrite sets_equal_iff. split.
    - intros H. apply map_empty. intros i.
      destruct (correct_choices d qid !! i) as [c|] eqn:E; [|done].
      apply correct_choice_lookup in E as (Hi & Hq & Hc).
      apply (H i c Hi Hq) in Hc. by destruct (Hblank i c Hi Hq).
    - intros Hempty i c Hi Hq. split.
      + intros Hc. assert (correct_choices d qid !! i = Some c) as E
          by by apply correct_choice_lookup.
        rewrite Hempty in E. by rewrite lookup_empty in E.
      + intros Hs. by destruct (Hblank i c Hi Hq). }
  repeat case_decide; tauto.
Qed.

Lemma blank_answer_awarded_witness :
  awarded_points blank_db (selected_choices blank_db 1) (2, mkQuestion 1 "Q2" 30)
  = if decide (correct_choices blank_db 2 = ∅) then 30 else 0.
Proof.
  apply (blank_answer_awarded blank_db 1 2 (mkQuestion 1 "Q2" 30)).
  intros i c _ _. simpl. rewrite elem_of_singleton. intros H. simplify_eq.
Defined.

(** * Further properties of enrollment *)

Lemma enroll_cases (w : World) (request : HttpRequest) (course_id : Z) :
  run (enroll request course_id) w = w
  ∨ ∃ uid course,
      user request = Some uid
      ∧ courses (db w) !! course_id = Some course
      ∧ check_if_enrolled (db w) uid course_id = false
      ∧ run (enroll request course_id) w
        = mkWorld (enrolled_db (db w) uid course_id (now request) course) (session w).
Proof.
  unfold run.
  destruct (courses (db w) !! course_id) as [course|] eqn:Hc.
  2:{ left. by rewrite enroll_unknown_course. }
  destruct (user request) as [uid|] eqn:Hu.
  2:{ left. by rewrite (enroll_anonymous request _ course). }
  destruct (check_if_enrolled (db w) uid course_id) eqn:He.
  { left. by rewrite (enroll_already_enrolled request _ course uid). }
  right. exists uid, course. repeat split; try done.
  by rewrite (enroll_not_enrolled request _ course uid).
Qed.

(** [enroll] writes nothing for an anonymous visitor, for an unknown course
    and for an account that is enrolled already. *)
Theorem enroll_no_change (w : World) (request : HttpRequest) (course_id : Z) :
  (user request = None
   ∨ courses (db w) !! course_id = None
   ∨ ∃ uid, user request = Some uid
            ∧ check_if_enrolled (db w) uid course_id = true) →
  run (enroll request course_id) w = w.
Proof.
  intros H. destruct (enroll_cases w request course_id)
    as [Hsame|(uid & course & Hu & Hc & He & _)]; [done|].
  destruct H as [H|[H|(uid' & Hu' & He')]]; [congruence..|].
  rewrite Hu in Hu'. injection Hu' as <-. congruence.
Qed.

Lemma enroll_no_change_witness :
  run (enroll (mkRequest "GET" ∅ None 20000) 1) (mkWorld demo_db None)
  = mkWorld demo_db None.
Proof. apply enroll_no_change. left. reflexivity. Defined.

(** What [enroll] leaves alone, whatever the request: accounts, questions,
    choices, submissions and the session; every other course; and the
    enrollment rows of every other (account, course) pair. *)
Theorem enroll_frame (w : World) (request : HttpRequest) (course_id : Z) :
  let w' := run (enroll request course_id) w in
  users (db w') = users (db w)
  ∧ questions (db w') = questions (db w)
  ∧ choices (db w') = choices (db w)
  ∧ submissions (db w') = submissions (db w)
  ∧ submission_choices (db w') = submission_choices (db w)
  ∧ session w' = session w
  ∧ (∀ other, other ≠ course_id →
       courses (db w') !! other = courses (db w) !! other)
  ∧ (∀ uid' other, user request ≠ Some uid' ∨ other ≠ course_id →
       enrollments_of (db w') uid' other = enrollments_of (db w) uid' other).
Proof.
  intros w'. unfold w'.
  destruct (enroll_cases w request course_id)
    as [->|(uid & course & Hu & Hc & He & ->)]; [done|].
  simpl. repeat split; try done.
  - intros other Hne. by rewrite lookup_insert_ne.
  - intros uid' other Hne. unfold enrollments_of, enrolled_db. simpl.
    rewrite map_filter_insert_False.
    + by rewrite delete_id by apply next_pk_fresh.
    + simpl. intros [-> ->]. destruct Hne; congruence.
Qed.

(** After [enroll] by an authenticated account for an existing course the
    account is enrolled, and the course list of that account flags the
    course wherever it lists it. *)
Theorem enroll_then_course_list
    (w : World) (request request' : HttpRequest) (course_id uid : Z)
    (course : Course) :
  user request = Some uid →
  user request' = Some uid →
  courses (db w) !! course_id = Some course →
  let w' := run (enroll request course_id) w in
  check_if_enrolled (db w') uid course_id = true
  ∧ ∃ course_list,
      get_queryset request' w' = (w', Ok course_list)
      ∧ ∀ c, c ∈ course_list → pk c = course_id → is_enrolled c = true.
Proof.
  intros Hu Hu' Hc w'.
  assert (check_if_enrolled (db w') uid course_id = true) as He.
  { unfold w'. destruct (enroll_cases w request course_id)
      as [Hsame|(uid' & course' & Hu2 & Hc2 & He2 & ->)].
    - rewrite Hsame. destruct (check_if_enrolled (db w) uid course_id) eqn:E; [done|].
      exfalso. revert Hsame. unfold run.
      rewrite (enroll_not_enrolled request _ course uid) by done. simpl.
      intros Hsame. apply (f_equal (λ x, enrollments (db x) !! next_pk (enrollments (db w)))) in Hsame.
      simpl in Hsame. rewrite lookup_insert_eq, next_pk_fresh in Hsame. done.
    - assert (uid' = uid) as -> by congruence. apply check_if_enrolled_enrolled_db. }
  split; [done|].
  unfold get_queryset, mbind, View_bind, query, mret, View_ret. simpl.
  rewrite Hu'. eexists. split; [reflexivity|].
  intros c Hin Hpk. apply list_elem_of_fmap in Hin as (c0 & -> & Hin). simpl in *.
  by rewrite Hpk.
Qed.

Lemma enroll_then_course_list_witness :
  check_if_enrolled
    (db (run (enroll (demo_request []) 1) (mkWorld demo_db None))) 1 1 = true.
Proof.
  refine (proj1 (enroll_then_course_list (mkWorld demo_db None) (demo_request [])
                   (demo_request []) 1 1 (mkCourse "C" "c.png" "a course" None 0) _ _ _)).
  - reflexivity.
  - reflexivity.
  - vm_compute. reflexivity.
Defined.

Lemma enroll_preserves_enrollment_unique_witness :
  enrollment_unique (db (run (enroll (demo_request []) 1) (mkWorld demo_db None))).
Proof.
  apply enroll_preserves_enrollment_unique.
  intros uid course_id. unfold enrollments_of. simpl.
  rewrite map_filter_empty. unfold count. rewrite map_size_empty. lia.
Defined.

(** [enroll] keeps the counters right: if every course's [total_enrollment]
    is the number of its enrollment rows before the call, it is so after. *)
Theorem enroll_preserves_counter_consistent
    (w : World) (request : HttpRequest) (course_id : Z) :
  counter_consistent (db w) →
  counter_consistent (db (run (enroll request course_id) w)).
Proof.
  intros Hinv.
  destruct (enroll_cases w request course_id)
    as [->|(uid & course & Hu & Hc & He & ->)]; [done|].
  intros other c Hother. unfold enrollments_in. simpl in *.
  destruct (decide (other = course_id)) as [->|Hne].
  - rewrite lookup_insert_eq in Hother. injection Hother as <-.
    rewrite map_filter_insert_True by done. unfold count.
    rewrite map_size_insert_None.
    2:{ apply map_lookup_filter_None. left. apply next_pk_fresh. }
    simpl. rewrite (Hinv course_id course Hc). unfold enrollments_in, count. lia.
  - rewrite lookup_insert_ne in Hother by done.
    rewrite map_filter_insert_False by (simpl; congruence).
    rewrite delete_id by apply next_pk_fresh. by apply Hinv.
Qed.

Lemma enroll_preserves_counter_consistent_witness :
  counter_consistent (db (run (enroll (demo_request []) 1) (mkWorld demo_db None))).
Proof.
  apply enroll_preserves_counter_consistent.
  intros course_id course Hc. unfold enrollments_in. simpl in *.
  rewrite map_filter_empty. unfold count. rewrite map_size_empty.
  apply lookup_singleton_Some in Hc as [_ <-]. reflexivity.
Defined.

(** * Further properties of exam submission *)

(** ** extract_answers *)


Lemma extract_answers_from_ok (items : list (string * string)) (acc : list Z) :
  (∀ key v, (key, v) ∈ items → String.prefix "choice" key = true →
            ∃ i, int v = Ok i) →
  ∃ ids, extract_answers_from items acc = Ok (acc ++ ids)
         ∧ (∀ i, i ∈ ids ↔ ∃ key v, (key, v) ∈ items
                                     ∧ String.prefix "choice" key = true
                                     ∧ int v = Ok i)
         ∧ length ids
           = length (filter (λ kv : string * string,
                               String.prefix "choice" kv.1 = true) items).
Proof.
  revert acc. induction items as [|[key v] items IH]; intros acc Hall.
  - exists []. rewrite app_nil_r. split; [done|]. split; [|done].
    intros i. split; [by intros ?%elem_of_nil|].
    by intros (k & x & ?%elem_of_nil & _).
  - cbn [extract_answers_from].
    assert (∀ k x, (k, x) ∈ items → String.prefix "choice" k = true →
                   ∃ i, int x = Ok i) as Hall'.
    { intros k x Hin. apply Hall, elem_of_cons. by right. }
    destruct (String.prefix "choice" key) eqn:Hp.
    + destruct (Hall key v) as [i0 Hi0]; [apply elem_of_cons; by left|done|].
      rewrite Hi0. destruct (IH (acc ++ [i0]) Hall') as (ids & Hrun & Hmem & Hlen).
      exists (i0 :: ids). split; [by rewrite Hrun, <- app_assoc|]. split.
      * intros i. rewrite elem_of_cons, Hmem. split.
        -- intros [->|(k & x & Hin & Hk & Hx)].
           ++ exists key, v. split; [apply elem_of_cons; by left|done].
           ++ exists k, x. split; [apply elem_of_cons; by right|done].
        -- intros (k & x & Hin & Hk & Hx).
           apply elem_of_cons in Hin as [Heq|Hin].
           ++ left. injection Heq as -> ->. congruence.
           ++ right. by exists k, x.
      * rewrite filter_cons_True by done. simpl. by rewrite Hlen.
    + destruct (IH acc Hall') as (ids & Hrun & Hmem & Hlen).
      exists ids. split; [done|]. split.
      * intros i. rewrite Hmem. split.
        -- intros (k & x & Hin & Hk & Hx). exists k, x.
           split; [apply elem_of_cons; by right|done].
        -- intros (k & x & Hin & Hk & Hx).
           apply elem_of_cons in Hin as [Heq|Hin]; [|by exists k, x].
           injection Heq as -> ->. congruence.
      * rewrite filter_cons_False by (simpl; congruence). done.
Qed.


(** When every form field whose name starts with "choice" holds an integer,
    [extract_answers] returns one identifier per such field: exactly the
    values of those fields, whatever other fields the form carries. *)
Theorem extract_answers_ok (request : HttpRequest) :
  (∀ key v, POST request !! key = Some v → String.prefix "choice" key = true →
            ∃ i, int v = Ok i) →
  ∃ ids, extract_answers request = Ok ids
         ∧ (∀ i, i ∈ ids ↔ ∃ key v, POST request !! key = Some v
                                     ∧ String.prefix "choice" key = true
                                     ∧ int v = Ok i)
         ∧ length ids
           = size (filter (λ kv : string * string,
                             String.prefix "choice" kv.1 = true) (POST request)).
Proof.
  intros Hall. unfold extract_answers.
  destruct (extract_answers_from_ok (map_to_list (POST request)) [])
    as (ids & Hrun & Hmem & Hlen).
  { intros key v Hin. apply Hall. by apply elem_of_map_to_list. }
  exists ids. split; [done|]. split.
  - intros i. rewrite Hmem. split; intros (k & x & Hin & H); exists k, x;
      (split; [by apply elem_of_map_to_list|done]).
  - rewrite Hlen, <- length_map_to_list. apply Permutation_length.
    apply NoDup_Permutation.
    + apply NoDup_filter, NoDup_map_to_list.
    + apply NoDup_map_to_list.
    + intros [k x]. rewrite list_elem_of_filter, !elem_of_map_to_list,
        map_lookup_filter_Some. tauto.
Qed.

Lemma extract_answers_ok_witness :
  ∃ ids, extract_answers
           (demo_request [("csrfmiddlewaretoken", "x"); ("choice_1", "1");
                          ("choice_4", "4")]) = Ok ids
         ∧ length ids = 2%nat.
Proof.
  destruct (extract_answers_ok
              (demo_request [("csrfmiddlewaretoken", "x"); ("choice_1", "1");
                             ("choice_4", "4")])) as (ids & Hrun & _ & Hlen).
  - intros key v Hkv Hp. simpl in Hkv.
    destruct (decide (key = "choice_1")) as [->|].
    { exists 1. vm_compute in Hkv. injection Hkv as <-. reflexivity. }
    destruct (decide (key = "choice_4")) as [->|].
    { exists 4. vm_compute in Hkv. injection Hkv as <-. reflexivity. }
    destruct (decide (key = "csrfmiddlewaretoken")) as [->|]; [discriminate|].
    exfalso. rewrite !lookup_insert_ne in Hkv by done. by rewrite lookup_empty in Hkv.
  - exists ids. split; [exact Hrun|]. rewrite Hlen. vm_compute. reflexivity.
Defined.



(** ** submit *)

Lemma get_singleton {A} (model : string) (qs : gmap Z A) :
  size qs = 1%nat → ∃ row, map_to_list qs = [row] ∧ get model qs = Ok row.
Proof.
  intros Hsize. unfold get. rewrite <- length_map_to_list in Hsize.
  destruct (map_to_list qs) as [|row [|row' rows]]; simpl in Hsize; try lia.
  by exists row.
Qed.

Lemma get_multiple {A} (model : string) (qs : gmap Z A) :
  (1 < size qs)%nat → get model qs = Raise (MultipleObjectsReturned model).
Proof.
  intros Hsize. unfold get. rewrite <- length_map_to_list in Hsize.
  destruct (map_to_list qs) as [|row [|row' rows]]; simpl in Hsize; try lia.
  done.
Qed.

Lemma get_empty {A} (model : string) (qs : gmap Z A) :
  size qs = 0%nat → get model qs = Raise (DoesNotExist model).
Proof.
  intros Hsize. apply map_size_empty_iff in Hsize as ->.
  unfold get. by rewrite map_to_list_empty.
Qed.

(** What [submit] does once the enrollment is found. *)
Lemma submit_enrolled w request course_id uid course row :
  user request = Some uid →
  courses (db w) !! course_id = Some course →
  get "Enrollment" (enrollments_of (db w) uid course_id) = Ok row →
  let sid := next_pk (submissions (db w)) in
  let created := <[sid := mkSubmission row.1]> (submissions (db w)) in
  submit request course_id w =
  match extract_answers request with
  | Raise e =>
      (mkWorld (with_submissions (db w) created (submission_choices (db w)))
               (session w), Raise e)
  | Ok ids =>
      if decide (Forall (λ i, i ∈ dom (choices (db w))) ids) then
        (mkWorld (with_submissions (db w) created (join_after_set (db w) sid ids))
                 (session w),
         Ok (redirect "onlinecourse:exam_result" [course_id; sid]))
      else
        (mkWorld (with_submissions (db w) created (submission_choices (db w)))
                 (session w), Raise IntegrityError)
  end.
Proof.
  intros Hu Hc Hget sid created.
  unfold submit, mbind, View_bind, query, lift, get_object_or_404.
  simpl. rewrite Hc, Hu, Hget. simpl.
  unfold create_submission, mbind, View_bind, query, write, mret, View_ret, create.
  simpl. destruct (extract_answers request) as [ids|e]; [|done].
  unfold set_choices, mbind, View_bind, query, write, raise. simpl.
  case_decide; done.
Qed.

(** A successful submission.  For an account with one enrollment row for an
    existing course, and answers that are identifiers of choices, [submit]
    adds one submission row at a fresh key, bound to that enrollment, makes
    the selected choices of the new submission exactly the answers, leaves
    the selections of all other submissions and the rest of the store
    alone, and redirects to the result page of the new submission. *)
Theorem submit_creates_submission
    (w : World) (request : HttpRequest) (course_id uid : Z) (course : Course)
    (eid : Z) (e : Enrollment) (ids : list Z) :
  user request = Some uid →
  courses (db w) !! course_id = Some course →
  enrollments_of (db w) uid course_id = {[eid := e]} →
  extract_answers request = Ok ids →
  (∀ i, i ∈ ids → is_Some (choices (db w) !! i)) →
  let sid := next_pk (submissions (db w)) in
  let w' := run (submit request course_id) w in
  submit request course_id w
  = (w', Ok (redirect "onlinecourse:exam_result" [course_id; sid]))
  ∧ submissions (db w) !! sid = None
  ∧ submissions (db w') = <[sid := mkSubmission eid]> (submissions (db w))
  ∧ (∀ i, (sid, i) ∈ submission_choices (db w') ↔ i ∈ ids)
  ∧ (∀ other i, other ≠ sid →
       ((other, i) ∈ submission_choices (db w')
        ↔ (other, i) ∈ submission_choices (db w)))
  ∧ users (db w') = users (db w)
  ∧ courses (db w') = courses (db w)
  ∧ enrollments (db w') = enrollments (db w)
  ∧ questions (db w') = questions (db w)
  ∧ choices (db w') = choices (db w)
  ∧ session w' = session w.
Proof.
  intros Hu Hc Henr Hids Hknown sid w'.
  assert (get "Enrollment" (enrollments_of (db w) uid course_id) = Ok (eid, e)) as Hget.
  { rewrite Henr. unfold get. by rewrite map_to_list_singleton. }
  pose proof (submit_enrolled w request course_id uid course (eid, e) Hu Hc Hget) as Hrun.
  simpl in Hrun. rewrite Hids in Hrun.
  destruct (decide (Forall (λ i, i ∈ dom (choices (db w))) ids)) as [_|Hbad].
  2:{ exfalso. apply Hbad, Forall_forall. intros i Hi. apply elem_of_dom. auto. }
  unfold w', run. rewrite Hrun. simpl. fold sid.
  repeat split; try done.
  - apply next_pk_fresh.
  - unfold join_after_set. rewrite elem_of_union, elem_of_filter, elem_of_list_to_set,
      list_elem_of_fmap. simpl. intros [[Hne _]|(i' & Heq & Hi')]; [done|].
    by injection Heq as ->.
  - intros Hi. unfold join_after_set. rewrite elem_of_union, elem_of_list_to_set,
      list_elem_of_fmap. right. by exists i.
  - unfold join_after_set. rewrite elem_of_union, elem_of_filter, elem_of_list_to_set,
      list_elem_of_fmap. simpl. intros [[_ Hin]|(i' & Heq & Hi')]; [done|].
    injection Heq as -> ->. done.
  - intros Hin. unfold join_after_set. rewrite elem_of_union, elem_of_filter.
    left. done.
Qed.

Lemma submit_creates_submission_witness :
  let w' := run (submit (demo_request [("choice_1", "1"); ("choice_2", "2")]) 1)
                (mkWorld extra_choice_db None) in
  submissions (db w') = <[2 := mkSubmission 1]> {[ 1 := mkSubmission 1 ]}
  ∧ ∀ i, (2, i) ∈ submission_choices (db w') ↔ i ∈ [1; 2].
Proof.
  intros w'.
  destruct (submit_creates_submission (mkWorld extra_choice_db None)
              (demo_request [("choice_1", "1"); ("choice_2", "2")]) 1 1
              (mkCourse "C" "c.png" "a course" None 0)
              1 (mkEnrollment 1 1 20000 "honor") [1; 2])
    as (_ & _ & Hs & Hj & _).
  - reflexivity.
  - vm_compute. reflexivity.
  - vm_compute. reflexivity.
  - vm_compute. reflexivity.
  - intros i Hi. apply elem_of_cons in Hi as [->|Hi]; [by eexists|].
    apply elem_of_cons in Hi as [->|Hi]; [by eexists|]. by apply elem_of_nil in Hi.
  - split; [exact Hs|exact Hj].
Defined.

(** Following the redirect of a successful [submit] always shows the result
    page, never an error, and the page lists exactly the submitted choices
    as the learner's selection. *)
Theorem submit_then_show_exam_result
    (w : World) (request request' : HttpRequest) (course_id uid : Z)
    (course : Course) (eid : Z) (e : Enrollment) (ids : list Z) :
  user request = Some uid →
  courses (db w) !! course_id = Some course →
  enrollments_of (db w) uid course_id = {[eid := e]} →
  extract_answers request = Ok ids →
  (∀ i, i ∈ ids → is_Some (choices (db w) !! i)) →
  ∃ sid w' context selected,
    submit request course_id w
    = (w', Ok (redirect "onlinecourse:exam_result" [course_id; sid]))
    ∧ show_exam_result request' course_id sid w'
      = (w', Ok (render "onlinecourse/exam_result_bootstrap.html" context))
    ∧ context !! "choices" = Some (VChoices selected)
    ∧ (∀ i, is_Some (selected !! i) ↔ i ∈ ids)
    ∧ (∀ i c, selected !! i = Some c → choices (db w) !! i = Some c).
Proof.
  intros Hu Hc Henr Hids Hknown.
  assert (get "Enrollment" (enrollments_of (db w) uid course_id) = Ok (eid, e)) as Hget.
  { rewrite Henr. unfold get. by rewrite map_to_list_singleton. }
  pose proof (submit_enrolled w request course_id uid course (eid, e) Hu Hc Hget) as Hrun.
  simpl in Hrun. rewrite Hids in Hrun.
  destruct (decide (Forall (λ i, i ∈ dom (choices (db w))) ids)) as [_|Hbad].
  2:{ exfalso. apply Hbad, Forall_forall. intros i Hi. apply elem_of_dom. auto. }
  set (sid := next_pk (submissions (db w))) in *.
  set (d' := with_submissions (db w) (<[sid := mkSubmission eid]> (submissions (db w)))
               (join_after_set (db w) sid ids)) in *.
  exists sid, (mkWorld d' (session w)). eexists. exists (selected_choices d' sid).
  split; [exact Hrun|]. split.
  { apply (show_exam_result_run _ _ _ _ course (mkSubmission eid)).
    - done.
    - simpl. by rewrite lookup_insert_eq. }
  split; [by rewrite lookup_insert_eq|].
  assert (∀ i, (sid, i) ∈ join_after_set (db w) sid ids ↔ i ∈ ids) as Hjoin.
  { intros i. unfold join_after_set. rewrite elem_of_union, elem_of_filter,
      elem_of_list_to_set, list_elem_of_fmap. simpl. split.
    - intros [[Hne _]|(i' & Heq & Hi')]; [done|]. by injection Heq as ->.
    - intros Hi. right. by exists i. }
  split.
  - intros i. unfold selected_choices, is_Some. simpl. split.
    + intros [c Hc']. apply map_lookup_filter_Some in Hc' as [_ Hin]. simpl in Hin.
      by apply Hjoin.
    + intros Hi. destruct (Hknown i Hi) as [c Hc']. exists c.
      apply map_lookup_filter_Some. split; [done|]. simpl. by apply Hjoin.
  - intros i c Hsel. unfold selected_choices in Hsel.
    by apply map_lookup_filter_Some in Hsel as [Hsel _].
Qed.

Lemma submit_then_show_exam_result_witness :
  ∃ sid w' context,
    submit (demo_request [("choice_1", "1"); ("choice_2", "2")]) 1
           (mkWorld extra_choice_db None)
    = (w', Ok (redirect "onlinecourse:exam_result" [1; sid]))
    ∧ show_exam_result (demo_request []) 1 sid w'
      = (w', Ok (render "onlinecourse/exam_result_bootstrap.html" context)).
Proof.
  destruct (submit_then_show_exam_result (mkWorld extra_choice_db None)
              (demo_request [("choice_1", "1"); ("choice_2", "2")]) (demo_request [])
              1 1 (mkCourse "C" "c.png" "a course" None 0)
              1 (mkEnrollment 1 1 20000 "honor") [1; 2])
    as (sid & w' & context & selected & H1 & H2 & _).
  - reflexivity.
  - vm_compute. reflexivity.
  - vm_compute. reflexivity.
  - vm_compute. reflexivity.
  - intros i Hi. apply elem_of_cons in Hi as [->|Hi]; [by eexists|].
    apply elem_of_cons in Hi as [->|Hi]; [by eexists|]. by apply elem_of_nil in Hi.
  - exists sid, w', context. split; [exact H1|exact H2].
Defined.



(** An answer that is no choice fails late too.  With one enrollment row in
    place and integer answers of which one identifies no choice, the
    database refuses the join rows ([IntegrityError]) after the submission
    row was written: the row stays, and the join table is as it was. *)
Theorem submit_unknown_choice_leaves_submission
    (w : World) (request : HttpRequest) (course_id uid : Z) (course : Course)
    (eid : Z) (e : Enrollment) (ids : list Z) (i : Z) :
  user request = Some uid →
  courses (db w) !! course_id = Some course →
  enrollments_of (db w) uid course_id = {[eid := e]} →
  extract_answers request = Ok ids →
  i ∈ ids →
  choices (db w) !! i = None →
  let sid := next_pk (submissions (db w)) in
  let w' := run (submit request course_id) w in
  submit request course_id w = (w', Raise IntegrityError)
  ∧ submissions (db w) !! sid = None
  ∧ submissions (db w') = <[sid := mkSubmission eid]> (submissions (db w))
  ∧ submission_choices (db w') = submission_choices (db w).
Proof.
  intros Hu Hc Henr Hids Hi Hnone sid w'.
  assert (get "Enrollment" (enrollments_of (db w) uid course_id) = Ok (eid, e)) as Hget.
  { rewrite Henr. unfold get. by rewrite map_to_list_singleton. }
  pose proof (submit_enrolled w request course_id uid course (eid, e) Hu Hc Hget) as Hrun.
  simpl in Hrun. unfold w', run. rewrite Hids in Hrun.
  destruct (decide (Forall (λ i, i ∈ dom (choices (db w))) ids)) as [Hall|_].
  { exfalso. rewrite Forall_forall in Hall. specialize (Hall i Hi).
    apply elem_of_dom in Hall as [c Hc']. congruence. }
  rewrite Hrun. simpl. split; [done|]. split; [apply next_pk_fresh|done].
Qed.

Lemma submit_unknown_choice_leaves_submission_witness :
  let w' := run (submit (demo_request [("choice_1", "99")]) 1)
                (mkWorld extra_choice_db None) in
  submissions (db w') = <[2 := mkSubmission 1]> {[ 1 := mkSubmission 1 ]}
  ∧ submission_choices (db w') = {[ (1, 1); (1, 2); (1, 4) ]}.
Proof.
  intros w'.
  destruct (submit_unknown_choice_leaves_submission (mkWorld extra_choice_db None)
              (demo_request [("choice_1", "99")]) 1 1
              (mkCourse "C" "c.png" "a course" None 0)
              1 (mkEnrollment 1 1 20000 "honor") [99] 99)
    as (_ & _ & Hs & Hj).
  - reflexivity.
  - vm_compute. reflexivity.
  - vm_compute. reflexivity.
  - vm_compute. reflexivity.
  - set_solver.
  - vm_compute. reflexivity.
  - split; [exact Hs|exact Hj].
Defined.

(** With more than one enrollment row for the pair, [submit] fails with
    [MultipleObjectsReturned] and writes nothing. *)
Theorem submit_duplicate_enrollment
    (w : World) (request : HttpRequest) (course_id uid : Z) (course : Course) :
  user request = Some uid →
  courses (db w) !! course_id = Some course →
  1 < count (enrollments_of (db w) uid course_id) →
  submit request course_id w = (w, Raise (MultipleObjectsReturned "Enrollment")).
Proof.
  intros Hu Hc Hmany.
  unfold submit, mbind, View_bind, query, lift, get_object_or_404.
  simpl. rewrite Hc, Hu. rewrite get_multiple; [done|]. unfold count in Hmany. lia.
Qed.

Lemma submit_duplicate_enrollment_witness :
  submit (demo_request [("choice_1", "1")]) 1 (mkWorld duplicate_enrollment_db None)
  = (mkWorld duplicate_enrollment_db None,
     Raise (MultipleObjectsReturned "Enrollment")).
Proof.
  apply (submit_duplicate_enrollment _ _ 1 1 (mkCourse "C" "c.png" "a course" None 0)).
  - reflexivity.
  - vm_compute. reflexivity.
  - vm_compute. reflexivity.
Defined.

(** [submit] writes only for an account with exactly one enrollment row for
    the course: for an anonymous visitor, an unknown course, no row or more
    than one row it raises and leaves the store as it was. *)
Theorem submit_writes_only_when_enrolled_once
    (w : World) (request : HttpRequest) (course_id : Z) :
  (∀ uid, user request = Some uid →
          is_Some (courses (db w) !! course_id) →
          count (enrollments_of (db w) uid course_id) ≠ 1) →
  ∃ e, submit request course_id w = (w, Raise e)
       ∧ (e = Http404 ∨ e = TypeError ∨ e = DoesNotExist "Enrollment"
          ∨ e = MultipleObjectsReturned "Enrollment").
Proof.
  intros Hnot.
  unfold submit, mbind, View_bind, query, lift, get_object_or_404. simpl.
  destruct (courses (db w) !! course_id) as [course|] eqn:Hc; simpl.
  2:{ exists Http404. auto. }
  destruct (user request) as [uid|] eqn:Hu; simpl.
  2:{ exists TypeError. auto. }
  specialize (Hnot uid eq_refl (mk_is_Some _ _ eq_refl)). unfold count in Hnot.
  destruct (decide (size (enrollments_of (db w) uid course_id) = 0%nat)) as [H0|H0].
  - rewrite get_empty by done. exists (DoesNotExist "Enrollment"). auto.
  - rewrite get_multiple by lia. exists (MultipleObjectsReturned "Enrollment"). auto.
Qed.

Lemma submit_writes_only_when_enrolled_once_witness :
  ∃ e, submit (mkRequest "POST" ∅ None 20000) 1 (mkWorld demo_db None)
       = (mkWorld demo_db None, Raise e).
Proof.
  destruct (submit_writes_only_when_enrolled_once (mkWorld demo_db None)
              (mkRequest "POST" ∅ None 20000) 1) as (e & He & _).
  - intros uid Hu. discriminate.
  - exists e. exact He.
Defined.

(** Whatever the request and its outcome, [submit] keeps the accounts,
    courses, enrollments, questions, choices and the session, every
    submission row already stored, and the selected choices of every stored
    submission. *)
Theorem submit_frame (w : World) (request : HttpRequest) (course_id : Z) :
  let w' := run (submit request course_id) w in
  users (db w') = users (db w)
  ∧ courses (db w') = courses (db w)
  ∧ enrollments (db w') = enrollments (db w)
  ∧ questions (db w') = questions (db w)
  ∧ choices (db w') = choices (db w)
  ∧ session w' = session w
  ∧ (∀ sid s, submissions (db w) !! sid = Some s →
              submissions (db w') !! sid = Some s)
  ∧ (∀ sid i, is_Some (submissions (db w) !! sid) →
              ((sid, i) ∈ submission_choices (db w')
               ↔ (sid, i) ∈ submission_choices (db w))).
Proof.
  intros w'. unfold w', run.
  destruct (courses (db w) !! course_id) as [course|] eqn:Hc.
  2:{ by rewrite submit_unknown_course. }
  destruct (user request) as [uid|] eqn:Hu.
  2:{ unfold submit, mbind, View_bind, query, lift, get_object_or_404.
      simpl. by rewrite Hc, Hu. }
  destruct (get "Enrollment" (enrollments_of (db w) uid course_id)) as [row|e] eqn:Hget.
  2:{ unfold submit, mbind, View_bind, query, lift, get_object_or_404.
      simpl. by rewrite Hc, Hu, Hget. }
  rewrite (submit_enrolled w request course_id uid course row Hu Hc Hget).
  assert (∀ sid s, submissions (db w) !! sid = Some s →
            (<[next_pk (submissions (db w)) := mkSubmission row.1]>
               (submissions (db w))) !! sid = Some s) as Hkeep.
  { intros sid s Hs. rewrite lookup_insert_ne; [done|].
    intros <-. by rewrite next_pk_fresh in Hs. }
  destruct (extract_answers request) as [ids|e]; [|by simpl].
  case_decide; [|by simpl]. simpl. repeat split; try done.
  - unfold join_after_set. rewrite elem_of_union, elem_of_filter, elem_of_list_to_set,
      list_elem_of_fmap. simpl. intros [[_ Hin]|(i' & Heq & _)]; [done|].
    injection Heq as -> ->. destruct H0 as [s Hs]. by rewrite next_pk_fresh in Hs.
  - intros Hin. unfold join_after_set. rewrite elem_of_union, elem_of_filter. left.
    split; [|done]. simpl. intros ->. destruct H0 as [s Hs].
    by rewrite next_pk_fresh in Hs.
Qed.

(** * Further properties of registration *)

Lemma get_users_named_empty d name :
  users_named d name = ∅ → get "User" (users_named d name) = Raise (DoesNotExist "User").
Proof. intros ->. unfold get. by rewrite map_to_list_empty. Qed.

Lemma registration_post make_password w request name :
  method request = "POST" →
  POST request !! "username" = Some name →
  registration_request make_password request w =
  match get "User" (users_named (db w) name) with
  | Ok _ =>
      (w, Ok (render "onlinecourse/user_registration_bootstrap.html"
                (<["message" := VStr "El nombre de usuario ya existe."]> ∅)))
  | Raise (DoesNotExist _) =>
      match getitem (POST request) "firstname" with
      | Raise e => (w, Raise e)
      | Ok firstname =>
          match getitem (POST request) "lastname" with
          | Raise e => (w, Raise e)
          | Ok lastname =>
              match getitem (POST request) "psw" with
              | Raise e => (w, Raise e)
              | Ok psw =>
                  if decide (name = "") then (w, Raise ValueError)
                  else
                    (mkWorld (registered_db (db w)
                                (mkUser name firstname lastname (make_password psw)))
                             (Some (next_pk (users (db w)))),
                     Ok (redirect "onlinecourse:index" []))
              end
          end
      end
  | Raise e => (w, Raise e)
  end.
Proof.
  intros Hm Hp. unfold registration_request. rewrite Hm.
  case_decide; [done|]. case_decide; [|done].
  unfold mbind, View_bind, lift, query. unfold getitem at 1. rewrite Hp. simpl.
  destruct (get "User" (users_named (db w) name)) as [row|e]; [done|].
  destruct e; try done. simpl.
  destruct (getitem (POST request) "firstname") as [firstname|e]; [|done].
  destruct (getitem (POST request) "lastname") as [lastname|e]; [|done].
  destruct (getitem (POST request) "psw") as [psw|e]; [|done].
  unfold create_user. case_decide; [done|].
  unfold mbind, View_bind, query, write, login, mret, View_ret, create. simpl.
  done.
Qed.



Lemma get_DoesNotExist_empty {A} (model model' : string) (qs : gmap Z A) :
  get model qs = Raise (DoesNotExist model') → qs = ∅.
Proof.
  unfold get. destruct (map_to_list qs) as [|row [|row' rows]] eqn:E; try done.
  intros _. by apply map_to_list_empty_iff.
Qed.

(** A registration either writes nothing or is the successful one. *)
Lemma registration_cases make_password w request :
  (run (registration_request make_password request) w = w
   ∧ (registration_request make_password request w).2
     ≠ Ok (redirect "onlinecourse:index" []))
  ∨ ∃ name firstname lastname psw,
      name ≠ ""
      ∧ users_named (db w) name = ∅
      ∧ registration_request make_password request w
        = (mkWorld (registered_db (db w)
                      (mkUser name firstname lastname (make_password psw)))
                   (Some (next_pk (users (db w)))),
           Ok (redirect "onlinecourse:index" [])).
Proof.
  destruct (decide (method request = "POST")) as [Hm|Hm].
  2:{ left. unfold run, registration_request.
      case_decide; [done|]. case_decide; done. }
  destruct (POST request !! "username") as [name|] eqn:Hu.
  2:{ left. unfold run, registration_request. rewrite Hm.
      case_decide; [done|]. case_decide; [|done].
      unfold mbind, View_bind, lift, getitem. by rewrite Hu. }
  pose proof (registration_post make_password w request name Hm Hu) as Hrun.
  destruct (get "User" (users_named (db w) name)) as [row|e] eqn:Hget.
  { left. unfold run. by rewrite Hrun. }
  destruct e; try (left; unfold run; by rewrite Hrun).
  apply get_DoesNotExist_empty in Hget.
  destruct (getitem (POST request) "firstname") as [firstname|e];
    [|left; unfold run; by rewrite Hrun].
  destruct (getitem (POST request) "lastname") as [lastname|e];
    [|left; unfold run; by rewrite Hrun].
  destruct (getitem (POST request) "psw") as [psw|e];
    [|left; unfold run; by rewrite Hrun].
  destruct (decide (name = "")) as [Hempty|Hne];
    [left; unfold run; by rewrite Hrun|].
  right. by exists name, firstname, lastname, psw.
Qed.



(** A registration that does not end in the redirect to the course list
    has written nothing: no account, no login. *)
Theorem registration_failure_writes_nothing
    (make_password : string → string) (w : World) (request : HttpRequest) :
  (registration_request make_password request w).2
  ≠ Ok (redirect "onlinecourse:index" []) →
  run (registration_request make_password request) w = w.
Proof.
  intros Hfail.
  destruct (registration_cases make_password w request)
    as [[Hsame _]|(name & firstname & lastname & psw & _ & _ & Hrun)]; [done|].
  rewrite Hrun in Hfail. by destruct Hfail.
Qed.

Lemma registration_failure_writes_nothing_witness :
  run (registration_request (λ psw, psw)
         (mkRequest "POST" {[ "username" := "bea"; "firstname" := "Bea" ]} None 20000))
      (mkWorld demo_db None)
  = mkWorld demo_db None.
Proof.
  apply registration_failure_writes_nothing. vm_compute. discriminate.
Defined.



(** A POST that lacks the username, or has a new username but lacks one of
    the other fields, raises [MultiValueDictKeyError] for a field that is
    missing and creates no account. *)
Theorem registration_missing_field
    (make_password : string → string) (w : World) (request : HttpRequest) :
  method request = "POST" →
  (POST request !! "username" = None
   ∨ (∃ name, POST request !! "username" = Some name
              ∧ users_named (db w) name = ∅)
     ∧ (POST request !! "firstname" = None ∨ POST request !! "lastname" = None
        ∨ POST request !! "psw" = None)) →
  ∃ key, POST request !! key = None
         ∧ registration_request make_password request w
           = (w, Raise (MultiValueDictKeyError key)).
Proof.
  intros Hm [Hu|[(name & Hu & Hfresh) Hmiss]].
  - exists "username". split; [done|].
    unfold registration_request. rewrite Hm.
    case_decide; [done|]. case_decide; [|done].
    unfold mbind, View_bind, lift, getitem. by rewrite Hu.
  - rewrite (registration_post make_password w request name Hm Hu).
    rewrite get_users_named_empty by done. unfold getitem.
    destruct (POST request !! "firstname") as [firstname|] eqn:Hf.
    2:{ by exists "firstname". }
    destruct (POST request !! "lastname") as [lastname|] eqn:Hl.
    2:{ by exists "lastname". }
    destruct (POST request !! "psw") as [psw|] eqn:Hp.
    2:{ by exists "psw". }
    exfalso. destruct Hmiss as [?|[?|?]]; congruence.
Qed.

Lemma registration_missing_field_witness :
  ∃ key, registration_request (λ psw, psw)
           (mkRequest "POST" {[ "username" := "bea"; "firstname" := "Bea" ]} None 20000)
           (mkWorld demo_db None)
         = (mkWorld demo_db None, Raise (MultiValueDictKeyError key)).
Proof.
  destruct (registration_missing_field (λ psw, psw) (mkWorld demo_db None)
              (mkRequest "POST" {[ "username" := "bea"; "firstname" := "Bea" ]} None 20000))
    as (key & _ & Hrun).
  - reflexivity.
  - right. split.
    + exists "bea". split; vm_compute; reflexivity.
    + right. left. vm_compute. reflexivity.
  - exists key. exact Hrun.
Defined.

(** * Login and logout *)


(** Credentials that [authenticate] rejects leave the world as it was and
    show the login form with the error message. *)
Theorem login_request_invalid
    (authenticate : DB → string → string → option Z)
    (w : World) (request : HttpRequest) (name psw : string) :
  method request = "POST" →
  POST request !! "username" = Some name →
  POST request !! "psw" = Some psw →
  authenticate (db w) name psw = None →
  login_request authenticate request w
  = (w, Ok (render "onlinecourse/user_login_bootstrap.html"
              (<["message" := VStr "Usuario o contraseña no válidos."]> ∅))).
Proof.
  intros Hm Hu Hp Ha. unfold login_request. rewrite Hm.
  case_decide; [|done].
  unfold mbind, View_bind, lift, getitem, query. rewrite Hu, Hp. simpl.
  by rewrite Ha.
Qed.

Lemma login_request_invalid_witness :
  login_request (λ _ _ _, None)
    (mkRequest "POST" {[ "username" := "ana"; "psw" := "wrong" ]} None 20000)
    (mkWorld demo_db None)
  = (mkWorld demo_db None,
     Ok (render "onlinecourse/user_login_bootstrap.html"
           (<["message" := VStr "Usuario o contraseña no válidos."]> ∅))).
Proof.
  apply (login_request_invalid _ _ _ "ana" "wrong").
  - reflexivity.
  - vm_compute. reflexivity.
  - vm_compute. reflexivity.
  - reflexivity.
Defined.



(** * The routing table *)

Lemma to_python_to_url (n : Z) : 0 ≤ n → to_python (to_url n) = Some n.
Proof.
  intros Hn. unfold to_python, to_url.
  assert (N.to_uint (Z.to_N n) ≠ Decimal.Nil) as Hnil.
  { destruct (Z.to_N n); [done|]. apply DecimalPos.Unsigned.to_uint_nonnil. }
  rewrite NilZero.usu by done. simpl. f_equal.
  unfold Z.of_uint. change (Pos.of_uint (N.to_uint (Z.to_N n)))
    with (N.of_uint (N.to_uint (Z.to_N n))).
  rewrite DecimalN.Unsigned.of_to. lia.
Qed.

Lemma to_python_nonneg (s : string) (n : Z) : to_python s = Some n → 0 ≤ n.
Proof.
  unfold to_python. destruct (NilZero.uint_of_string s) as [u|]; [|done].
  simpl. intros [= <-]. unfold Z.of_uint. lia.
Qed.

Lemma match_fill_route (route : list piece) (args : list Z) (path : list string) :
  fill_route route args = Some path →
  ∃ kwargs, match_route route path = Some kwargs ∧ kwargs.*2 = args.
Proof.
  revert args path. induction route as [|[text|name] route IH]; intros args path H.
  - destruct args; [|done]. injection H as <-. by exists [].
  - cbn [fill_route] in H.
    destruct (fill_route route args) as [path'|] eqn:E; [|done].
    injection H as <-. destruct (IH _ _ E) as (kwargs & Hm & Hargs).
    exists kwargs. cbn [match_route]. by rewrite decide_True.
  - cbn [fill_route] in H. destruct args as [|n args]; [done|].
    case_decide as Hn; [|done].
    destruct (fill_route route args) as [path'|] eqn:E; [|done].
    injection H as <-. destruct (IH _ _ E) as (kwargs & Hm & Hargs).
    exists ((name, n) :: kwargs). split.
    + cbn [match_route]. rewrite to_python_to_url by done. by rewrite Hm.
    + rewrite fmap_cons. simpl. by rewrite Hargs.
Qed.

Lemma reverse_in_elem patterns viewname args path :
  reverse_in patterns viewname args = Some path →
  ∃ route name, (route, name) ∈ patterns
                ∧ viewname = app_name +:+ ":" +:+ name
                ∧ fill_route route args = Some path.
Proof.
  induction patterns as [|[route name] patterns IH]; [done|].
  cbn [reverse_in]. intros H.
  assert (reverse_in patterns viewname args = Some path →
          ∃ route0 name0, (route0, name0) ∈ (route, name) :: patterns
                          ∧ viewname = app_name +:+ ":" +:+ name0
                          ∧ fill_route route0 args = Some path) as Hrest.
  { intros H'. destruct (IH H') as (r & n & Hin & Hv & Hf).
    exists r, n. split; [apply elem_of_cons; by right|done]. }
  case_decide as Hv; [|by apply Hrest].
  destruct (fill_route route args) as [path'|] eqn:E; [|by apply Hrest].
  injection H as ->. exists route, name. split; [apply elem_of_cons; by left|done].
Qed.

Lemma resolve_first patterns extra path route name kwargs :
  (route, name) ∈ patterns →
  match_route route path = Some kwargs →
  (∀ r n k, (r, n) ∈ patterns → match_route r path = Some k → (r, n) = (route, name)) →
  resolve (patterns ++ extra) path = Some (name, kwargs).
Proof.
  induction patterns as [|[r n] patterns IH]; intros Hin Hm Hexcl.
  - by apply elem_of_nil in Hin.
  - cbn [app resolve]. destruct (match_route r path) as [k|] eqn:E.
    + assert ((r, n) = (route, name)) as Heq
        by (apply (Hexcl r n k); [apply elem_of_cons; by left|done]).
      injection Heq as -> ->. congruence.
    + apply elem_of_cons in Hin as [Heq|Hin]; [injection Heq as <- <-; congruence|].
      apply IH; [done..|]. intros r' n' k' Hin'. apply Hexcl, elem_of_cons. by right.
Qed.

Lemma match_route_overlap (route1 route2 : list piece) (path : list string)
    (kwargs1 kwargs2 : list (string * Z)) :
  match_route route1 path = Some kwargs1 →
  match_route route2 path = Some kwargs2 →
  overlap route1 route2 = true.
Proof.
  revert route2 path kwargs1 kwargs2.
  induction route1 as [|[a|n1] route1 IH];
    intros [|[b|n2] route2] [|p path] kwargs1 kwargs2 M1 M2;
    cbn [match_route overlap] in *; try done.
  - case_decide as Ha; [subst p|done]. case_decide as Hb; [subst b|done].
    rewrite bool_decide_eq_true_2 by done. simpl. by eapply IH.
  - case_decide as Ha; [subst p|done].
    destruct (to_python a) as [n|] eqn:E; [|done].
    rewrite bool_decide_eq_true_2 by done. simpl.
    destruct (match_route route2 path) as [k|] eqn:E2; [|done]. by eapply IH.
  - case_decide as Hb; [subst p|done].
    destruct (to_python b) as [n|] eqn:E; [|done].
    rewrite bool_decide_eq_true_2 by done. simpl.
    destruct (match_route route1 path) as [k|] eqn:E1; [|done]. by eapply IH.
  - destruct (to_python p) as [n|]; [|done].
    destruct (match_route route1 path) as [k1|] eqn:E1; [|done].
    destruct (match_route route2 path) as [k2|] eqn:E2; [|done]. by eapply IH.
Qed.

Lemma overlap_urlpatterns (route1 route2 : list piece) (name1 name2 : string) :
  (route1, name1) ∈ urlpatterns →
  (route2, name2) ∈ urlpatterns →
  overlap route1 route2 = true →
  (route1, name1) = (route2, name2).
Proof.
  intros H1 H2 Hov. unfold urlpatterns in H1, H2.
  repeat (apply elem_of_cons in H1 as [H1|H1]; [injection H1 as -> ->|]);
    [..|by apply elem_of_nil in H1];
    (repeat (apply elem_of_cons in H2 as [H2|H2]; [injection H2 as -> ->|]);
     [..|by apply elem_of_nil in H2]);
    try reflexivity; vm_compute in Hov; discriminate.
Qed.

(** No path matches two of the routes of urls.py: their order in
    [urlpatterns] does not matter. *)
Theorem urlpatterns_exclusive
    (path : list string) (route1 route2 : list piece) (name1 name2 : string)
    (kwargs1 kwargs2 : list (string * Z)) :
  (route1, name1) ∈ urlpatterns →
  (route2, name2) ∈ urlpatterns →
  match_route route1 path = Some kwargs1 →
  match_route route2 path = Some kwargs2 →
  (route1, name1) = (route2, name2).
Proof.
  intros H1 H2 M1 M2. apply overlap_urlpatterns; [done..|].
  by apply (match_route_overlap _ _ path kwargs1 kwargs2).
Qed.

Lemma urlpatterns_exclusive_witness :
  ([IntConverter "course_id"; Lit "enroll"], "enroll")
  = ([IntConverter "course_id"; Lit "enroll"], "enroll").
Proof.
  apply (urlpatterns_exclusive ["7"; "enroll"] _ _ _ _ [("course_id", 7)] [("course_id", 7)]).
  - unfold urlpatterns. rewrite !elem_of_cons. auto 10.
  - unfold urlpatterns. rewrite !elem_of_cons. auto 10.
  - vm_compute. reflexivity.
  - vm_compute. reflexivity.
Defined.

(** [resolve] undoes [reverse]: a path that [reverse] builds for a view name
    and arguments resolves to that name, capturing those arguments, whatever
    routes are appended after those of urls.py. *)
Theorem resolve_reverse
    (extra : list (list piece * string)) (viewname : string) (args : list Z)
    (path : list string) :
  reverse viewname args = Some path →
  ∃ name kwargs,
    viewname = app_name +:+ ":" +:+ name
    ∧ resolve (urlpatterns ++ extra) path = Some (name, kwargs)
    ∧ kwargs.*2 = args.
Proof.
  intros Hrev. unfold reverse in Hrev.
  apply reverse_in_elem in Hrev as (route & name & Hin & Hv & Hfill).
  apply match_fill_route in Hfill as (kwargs & Hm & Hargs).
  exists name, kwargs. split; [done|]. split; [|done].
  apply (resolve_first _ _ _ route); [done..|].
  intros r n k Hin' Hm'. apply overlap_urlpatterns; [done..|].
  by apply (match_route_overlap _ _ path k kwargs).
Qed.

Lemma resolve_reverse_witness :
  ∃ name kwargs,
    "onlinecourse:exam_result" = app_name +:+ ":" +:+ name
    ∧ resolve (urlpatterns ++ []) ["course"; "3"; "submission"; "12"; "result"]
      = Some (name, kwargs)
    ∧ kwargs.*2 = [3; 12].
Proof.
  apply (resolve_reverse [] "onlinecourse:exam_result" [3; 12]).
  vm_compute. reflexivity.
Defined.

Lemma next_pk_positive {A} (table : gmap Z A) : 0 < next_pk table.
Proof.
  unfold next_pk. assert (0 ≤ foldr Z.max 0 (elements (dom table))); [|lia].
  induction (elements (dom table)) as [|x l IH]; simpl; lia.
Qed.

(** The redirect of a successful [submit] can always be followed: for a
    course identifier taken from a URL (not negative) [reverse] finds the
    result route, and the path resolves to it with the course and the new
    submission as arguments. *)
Theorem submit_redirect_resolves
    (extra : list (list piece * string))
    (w : World) (request : HttpRequest) (course_id uid : Z) (course : Course)
    (eid : Z) (e : Enrollment) (ids : list Z) :
  0 ≤ course_id →
  user request = Some uid →
  courses (db w) !! course_id = Some course →
  enrollments_of (db w) uid course_id = {[eid := e]} →
  extract_answers request = Ok ids →
  (∀ i, i ∈ ids → is_Some (choices (db w) !! i)) →
  ∃ response path,
    (submit request course_id w).2 = Ok response
    ∧ location response = Some path
    ∧ path = ["course"; to_url course_id; "submission";
              to_url (next_pk (submissions (db w))); "result"]
    ∧ resolve (urlpatterns ++ extra) path
      = Some ("exam_result",
              [("course_id", course_id);
               ("submission_id", next_pk (submissions (db w)))]).
Proof.
  intros Hpos Hu Hc Henr Hids Hknown.
  assert (get "Enrollment" (enrollments_of (db w) uid course_id) = Ok (eid, e)) as Hget.
  { rewrite Henr. unfold get. by rewrite map_to_list_singleton. }
  pose proof (submit_enrolled w request course_id uid course (eid, e) Hu Hc Hget) as Hrun.
  simpl in Hrun. rewrite Hids in Hrun.
  destruct (decide (Forall (λ i, i ∈ dom (choices (db w))) ids)) as [_|Hbad].
  2:{ exfalso. apply Hbad, Forall_forall. intros i Hi. apply elem_of_dom. auto. }
  pose proof (next_pk_positive (submissions (db w))) as Hsid.
  set (sid := next_pk (submissions (db w))) in *.
  exists (redirect "onlinecourse:exam_result" [course_id; sid]).
  exists ["course"; to_url course_id; "submission"; to_url sid; "result"].
  split; [by rewrite Hrun|].
  assert (reverse "onlinecourse:exam_result" [course_id; sid]
          = Some ["course"; to_url course_id; "submission"; to_url sid; "result"])
    as Hrev.
  { unfold reverse, urlpatterns. cbn [reverse_in].
    repeat (rewrite decide_False by (vm_compute; discriminate)).
    rewrite decide_True by (vm_compute; reflexivity).
    cbn [fill_route]. rewrite !decide_True by lia. done. }
  split; [done|]. split; [done|].
  apply (resolve_first _ _ _
           [Lit "course"; IntConverter "course_id"; Lit "submission";
            IntConverter "submission_id"; Lit "result"]).
  - unfold urlpatterns. rewrite !elem_of_cons. auto 10.
  - cbn [match_route]. rewrite !decide_True by done.
    rewrite !to_python_to_url by lia. done.
  - intros r n k Hin Hm. apply overlap_urlpatterns; [done| |].
    + unfold urlpatterns. rewrite !elem_of_cons. auto 10.
    + apply (match_route_overlap _ _ _ k
               [("course_id", course_id); ("submission_id", sid)] Hm).
      cbn [match_route]. rewrite !decide_True by done.
      rewrite !to_python_to_url by lia. done.
Qed.

Lemma submit_redirect_resolves_witness :
  ∃ response path,
    (submit (demo_request [("choice_1", "1"); ("choice_2", "2")]) 1
            (mkWorld extra_choice_db None)).2 = Ok response
    ∧ location response = Some path.
Proof.
  destruct (submit_redirect_resolves [] (mkWorld extra_choice_db None)
              (demo_request [("choice_1", "1"); ("choice_2", "2")]) 1 1
              (mkCourse "C" "c.png" "a course" None 0)
              1 (mkEnrollment 1 1 20000 "honor") [1; 2])
    as (response & path & H1 & H2 & _).
  - lia.
  - reflexivity.
  - vm_compute. reflexivity.
  - vm_compute. reflexivity.
  - vm_compute. reflexivity.
  - intros i Hi. apply elem_of_cons in Hi as [->|Hi]; [by eexists|].
    apply elem_of_cons in Hi as [->|Hi]; [by eexists|]. by apply elem_of_nil in Hi.
  - exists response, path. split; [exact H1|exact H2].
Defined.

Lemma fill_route_negative (route : list piece) (args : list Z) (n : Z) :
  n ∈ args → n < 0 → fill_route route args = None.
Proof.
  revert args. induction route as [|[text|name] route IH]; intros args Hin Hneg.
  - destruct args; [by apply elem_of_nil in Hin|done].
  - cbn [fill_route]. by rewrite IH.
  - cbn [fill_route]. destruct args as [|a args]; [done|].
    case_decide as Ha; [|done].
    apply elem_of_cons in Hin as [->|Hin]; [lia|]. by rewrite IH.
Qed.

(** [reverse] finds no route for a negative argument, whatever the view
    name: the [int] converter does not match a sign. *)
Theorem reverse_negative_argument (viewname : string) (args : list Z) (n : Z) :
  n ∈ args → n < 0 → reverse viewname args = None.
Proof.
  intros Hin Hneg. unfold reverse.
  induction urlpatterns as [|[route name] patterns IH]; [done|].
  cbn [reverse_in]. rewrite (fill_route_negative route args n) by done.
  by case_decide.
Qed.

Lemma reverse_negative_argument_witness :
  reverse "onlinecourse:course_details" [-1] = None.
Proof. apply (reverse_negative_argument _ _ (-1)); [set_solver|lia]. Defined.

